(** * ftdi-eeprom: a shallow embedding of [ftdi-eeprom.c]

    The program is one translation unit: [print_help], [print_verbose],
    [parse_device_identifier] and [main].  The embedding keeps that shape.

    - [parse_device_identifier] is a pure function over the two [int]
      cells it writes through and the identifier string; the two calls to
      [strtol] it makes are modelled after ISO C 7.22.1.4 on an LP64
      target (64-bit [long], 32-bit [int]).
    - [main] runs in a small monad that logs what the process does (the
      [fprintf] calls and the libusb / libftdi calls, in order) and
      supports the early [return]s of the C code.  What the outside world
      answers (the C library's option scanner, libusb, libftdi) is an
      input of the model: a [cmdline] and a [world].
    - [libusb_strerror] only looks up the text of an error code; it is a
      function of the [world] and leaves no event. *)

From Stdlib Require Import ZArith List String Ascii Bool Lia.
Import ListNotations.

Local Open Scope string_scope.
Local Open Scope list_scope.
Local Open Scope Z_scope.

(** ** C integers *)

Module CInt.

Definition LONG_MAX : Z := 2 ^ 63 - 1.
Definition LONG_MIN : Z := - 2 ^ 63.

(** [strtol] saturates: a value outside of [long] is returned as
    [LONG_MAX] or [LONG_MIN]. *)
Definition clamp_long (z : Z) : Z :=
  if z >? LONG_MAX then LONG_MAX
  else if z <? LONG_MIN then LONG_MIN
  else z.

(** The conversion [(int) tmp] of a [long]: the value is reduced modulo
    2^32 into the range of [int]. *)
Definition to_int (z : Z) : Z :=
  (z + 2 ^ 31) mod 2 ^ 32 - 2 ^ 31.

Definition in_int (z : Z) : Prop := - 2 ^ 31 <= z < 2 ^ 31.

End CInt.

(** ** [strtol] *)

Module Strtol.

Definition char_code (c : ascii) : Z := Z.of_nat (nat_of_ascii c).

(** [isspace] in the C locale: space, and the controls 9 to 13. *)
Definition isspace (c : ascii) : bool :=
  let n := char_code c in
  (n =? 32) || ((9 <=? n) && (n <=? 13)).

(** The value of a character as a digit, for any base up to 36. *)
Definition digit_value (c : ascii) : option Z :=
  let n := char_code c in
  if (48 <=? n) && (n <=? 57) then Some (n - 48)
  else if (97 <=? n) && (n <=? 122) then Some (n - 97 + 10)
  else if (65 <=? n) && (n <=? 90) then Some (n - 65 + 10)
  else None.

Definition is_digit (base : Z) (c : ascii) : bool :=
  match digit_value c with
  | Some d => d <? base
  | None => false
  end.

Fixpoint skip_space (s : string) : string :=
  match s with
  | String c r => if isspace c then skip_space r else s
  | EmptyString => s
  end.

(** The longest run of digits of [base] at the head of [s], folded
    into [acc]; the second component is what follows the run. *)
Fixpoint scan_digits (base : Z) (acc : Z) (s : string) : Z * string :=
  match s with
  | String c r =>
      match digit_value c with
      | Some d =>
          if d <? base then scan_digits base (acc * base + d) r
          else (acc, s)
      | None => (acc, s)
      end
  | EmptyString => (acc, s)
  end.

Definition starts_with_digit (base : Z) (s : string) : bool :=
  match s with
  | String c _ => is_digit base c
  | EmptyString => false
  end.

Definition take_sign (s : string) : bool * string :=
  match s with
  | String c r =>
      if (c =? "-")%char then (true, r)
      else if (c =? "+")%char then (false, r)
      else (false, s)
  | EmptyString => (false, s)
  end.

Definition is_x (c : ascii) : bool :=
  ((c =? "x") || (c =? "X"))%char.

(** The base that is used and the place where the digits start.  With
    base 0 a leading [0x] or [0X] followed by a hexadecimal digit
    selects 16, any other leading [0] selects 8 (and that [0] is the
    first digit), anything else selects 10.  With base 16 the same
    prefix is skipped when it is there. *)
Definition take_base (base : Z) (s : string) : Z * string :=
  match s with
  | String c r =>
      if (c =? "0")%char then
        match r with
        | String x (String h r') =>
            if is_x x && is_digit 16 h then
              if (base =? 0) || (base =? 16) then (16, String h r')
              else (base, s)
            else (if base =? 0 then 8 else base, s)
        | _ => (if base =? 0 then 8 else base, s)
        end
      else (if base =? 0 then 10 else base, s)
  | EmptyString => (if base =? 0 then 10 else base, s)
  end.

(** The conversion once the base [b] is known and the digits are to
    start at [s2].  When no digit can be read there is no conversion:
    the value is 0 and [*endptr] is [nptr] itself, leading white space
    included. *)
Definition scan_from (nptr : string) (neg : bool) (b : Z) (s2 : string)
  : Z * string :=
  if starts_with_digit b s2 then
    let (v, rest) := scan_digits b 0 s2 in
    (CInt.clamp_long (if neg then - v else v), rest)
  else (0, nptr).

(** The conversion after the white space and the sign. *)
Definition convert (nptr : string) (base : Z) (neg : bool) (s1 : string)
  : Z * string :=
  let (b, s2) := take_base base s1 in
  scan_from nptr neg b s2.

(** [strtol nptr base] returns the converted value and the string that
    [*endptr] points to after the call. *)
Definition strtol (nptr : string) (base : Z) : Z * string :=
  let (neg, s1) := take_sign (skip_space nptr) in
  convert nptr base neg s1.

(** The numbers in the syntax of base 0, without white space: an
    optional sign, then [0x] or [0X] and hexadecimal digits, or [0]
    and octal digits, or decimal digits that do not start with [0]. *)
Fixpoint all_digits (base : Z) (s : string) : bool :=
  match s with
  | String c r => is_digit base c && all_digits base r
  | EmptyString => true
  end.

Definition nonempty (s : string) : bool :=
  match s with
  | String _ _ => true
  | EmptyString => false
  end.

Definition is_unsigned_numeral (s : string) : bool :=
  match s with
  | String c r =>
      if (c =? "0")%char then
        match r with
        | String x h =>
            if is_x x then nonempty h && all_digits 16 h
            else all_digits 8 r
        | EmptyString => true
        end
      else is_digit 10 c && all_digits 10 r
  | EmptyString => false
  end.

Definition is_numeral (s : string) : bool :=
  match s with
  | String c r =>
      if ((c =? "-") || (c =? "+"))%char then is_unsigned_numeral r
      else is_unsigned_numeral s
  | EmptyString => false
  end.

End Strtol.

Import Strtol.

(** ** [parse_device_identifier]

    The two output parameters [int* bus] and [int* device] are modelled
    by passing in the values the cells hold before the call and
    returning, next to the [bool] result, the values they hold after
    it. *)

Record parsed := Parsed {
  p_ok : bool;
  p_bus : Z;
  p_device : Z
}.

Definition parse_device_identifier (bus device : Z) (identifier : string)
  : parsed :=
  let (tmp, endptr) := strtol identifier 0 in
  match endptr with
  | String ":" after_colon =>
      let bus := CInt.to_int tmp in
      let (tmp, endptr) := strtol after_colon 0 in
      match endptr with
      | EmptyString => Parsed true bus (CInt.to_int tmp)
      | String _ _ => Parsed false bus device
      end
  | _ => Parsed false bus device
  end.

(** ** What the process does: events

    A run of [main] is observed as the sequence of its [fprintf] calls
    (stream, format string and arguments, as written in the source) and
    of its calls into libusb and libftdi.  One more event is not of
    [main]'s making: the message that [getopt_long] writes to the
    standard error stream when it rejects an option; its text is the C
    library's. *)

Inductive stream := stdout | stderr.

Inductive fmt_arg :=
| arg_s (s : string)
| arg_d (z : Z).

Record usb_device := UsbDevice {
  dev_id : nat;
  bus_number : Z;          (* what libusb_get_bus_number answers *)
  device_address : Z       (* what libusb_get_device_address answers *)
}.

Record libusb_device_descriptor := DeviceDescriptor {
  iManufacturer : Z;
  iProduct : Z;
  iSerialNumber : Z
}.

(** The three [char [128]] arrays of [main]. *)
Inductive buffer := orig_manufacturer | orig_product | orig_serial.

Inductive lib_call :=
| c_libusb_init
| c_libusb_get_device_list
| c_libusb_get_bus_number (d : usb_device)
| c_libusb_get_device_address (d : usb_device)
| c_ftdi_init
| c_ftdi_usb_open_dev (d : usb_device)
| c_libusb_get_device (d : usb_device)
| c_libusb_get_device_descriptor (d : usb_device)
| c_libusb_get_string_descriptor_ascii (d : usb_device) (index : Z)
    (data : buffer)
| c_ftdi_eeprom_initdefaults (manufacturer product serial : string)
| c_ftdi_eeprom_build
| c_ftdi_write_eeprom
| c_ftdi_deinit.

Inductive event :=
| ev_fprintf (f : stream) (fmt : string) (a : list fmt_arg)
| ev_call (c : lib_call)
| ev_getopt_long_message.   (* a message of getopt_long on stderr *)

(** ** The monad of [main]: a log of events, and early [return] *)

Inductive outcome (A : Type) :=
| Next (a : A)
| Exit (status : Z).

Arguments Next {A} a.
Arguments Exit {A} status.

Definition M (A : Type) : Type := list event * outcome A.

Definition ret {A} (a : A) : M A := ([], Next a).

Definition bind {A B} (m : M A) (f : A -> M B) : M B :=
  match m with
  | (t, Next a) => let (t', r) := f a in (t ++ t', r)
  | (t, Exit z) => (t, Exit z)
  end.

Notation "x <- m ;; k" := (bind m (fun x => k))
  (at level 61, m at next level, right associativity).
Notation "m ;; k" := (bind m (fun _ => k))
  (at level 61, right associativity).

(** [return z;] inside [main]. *)
Definition Return {A} (z : Z) : M A := ([], Exit z).

Definition emit (e : event) : M unit := ([e], Next tt).

Definition fprintf (f : stream) (fmt : string) (a : list fmt_arg) : M unit :=
  emit (ev_fprintf f fmt a).

(** [if (c) { ...; return ...; }] followed by more code. *)
Definition when (c : bool) (body : M unit) : M unit :=
  if c then body else ret tt.

Definition EXIT_SUCCESS : Z := 0.
Definition EXIT_FAILURE : Z := 1.

(** The outcome of the process: what it did and its exit status. *)
Record process := Process {
  trace : list event;
  status : Z
}.

Definition run (m : M Z) : process :=
  Process (fst m) (match snd m with Next z => z | Exit z => z end).

(** ** The command line, as [getopt_long] hands it over

    [getopt_long] belongs to the C library.  [main] sees of it the value
    of each call together with [optarg], and [optind] once it has
    answered -1; by then the non-option arguments are
    [argv[optind]] ... [argv[argc-1]].  A command line is given with
    these answers.  The list of answers is finite: [getopt_long] answers
    -1 after finitely many calls; the end of the list stands for -1.

    [main] passes [&optind] as the [longindex] argument.  The model does
    not depend on what the C library makes of that: [optind] below is
    whatever the variable holds when the loop is left.

    [main] leaves [opterr] at 1 and its option string does not start
    with a colon, so [getopt_long] writes a message to the standard
    error stream exactly when it answers ['?'] (an option it does not
    know, an argument that is missing or not allowed). *)

Record getopt_answer := Answer {
  g_c : Z;
  g_optarg : option string
}.

Record cmdline := Cmdline {
  argv0 : string;
  args : list string;         (* argv[1] ... as getopt_long leaves them *)
  getopt_long : list getopt_answer;
  optind : Z                  (* after the option loop *)
}.

Definition argv (cl : cmdline) : list string := argv0 cl :: args cl.
Definition argc (cl : cmdline) : Z := Z.of_nat (List.length (argv cl)).

(** [argv[i]] *)
Definition argv_at (cl : cmdline) (i : Z) : string :=
  nth (Z.to_nat i) (argv cl) "".

(** A character constant as an [int]. *)
Definition ch (c : ascii) : Z := char_code c.

(** ** [print_help] and [print_verbose] *)

Definition print_help (cl : cmdline) : M unit :=
  fprintf stdout "USAGE: %s [OPTIONS] bus:device\n" [arg_s (argv_at cl 0)] ;;
  fprintf stdout "Use lsusb to find the bus and device numbers.\n" [] ;;
  fprintf stdout "Options:\n" [] ;;
  fprintf stdout "  -m, --manufacturer=MFG Set the manufacturer to the specified value\n" [] ;;
  fprintf stdout "  -p, --product=PRODUCT  Set the product to the specified value\n" [] ;;
  fprintf stdout "  -s, --serial=SERIAL    Set the serial to the specified value\n" [] ;;
  fprintf stdout "  -v, --verbose          Verbose output\n" [] ;;
  fprintf stdout "  -h, --help             Print this help screen and exit\n" [] ;;
  fprintf stdout "Report bugs to <https://github.com/nemequ/ftdi-eeprom>\n" [].

(** The locals of [main] that the option loop sets, and the global
    [verbose_mode]. *)
Record options := Options {
  manufacturer : option string;     (* None is NULL *)
  product : option string;
  serial : option string;
  verbose_mode : bool
}.

Definition initial_options : options := Options None None None false.

Definition print_verbose (o : options) (fmt : string) (a : list fmt_arg)
  : M unit :=
  when (verbose_mode o) (fprintf stderr fmt a).

(** ** The option loop of [main] (lines 79 to 98) *)

(** What a call of [getopt_long] that answers [c] has written. *)
Definition getopt_long_writes (c : Z) : M unit :=
  when (c =? ch "?") (emit ev_getopt_long_message).

Fixpoint option_loop (cl : cmdline) (answers : list getopt_answer)
  (o : options) : M options :=
  match answers with
  | [] => ret o
  | Answer c optarg :: rest =>
      getopt_long_writes c ;;
      if c =? -1 then ret o
      else if c =? ch "m" then
        option_loop cl rest
          (Options optarg (product o) (serial o) (verbose_mode o))
      else if c =? ch "p" then
        option_loop cl rest
          (Options (manufacturer o) optarg (serial o) (verbose_mode o))
      else if c =? ch "s" then
        option_loop cl rest
          (Options (manufacturer o) (product o) optarg (verbose_mode o))
      else if c =? ch "v" then
        option_loop cl rest
          (Options (manufacturer o) (product o) (serial o) true)
      else if c =? ch "h" then
        print_help cl ;; Return EXIT_SUCCESS
      else option_loop cl rest o
  end.

(** ** The outside world: what libusb and libftdi answer *)

Inductive device_list :=
| list_error (e : positive)              (* n_devices is the negative -e *)
| list_devices (l : list usb_device).    (* n_devices is the length of l *)

Record world := World {
  w_libusb_init : Z;
  w_libusb_get_device_list : device_list;
  w_ftdi_init : Z;
  w_ftdi_usb_open_dev : usb_device -> Z;
  w_libusb_get_device_descriptor :
    usb_device -> Z * libusb_device_descriptor;
  (* the value returned, and the content of the buffer after the call *)
  w_libusb_get_string_descriptor_ascii : usb_device -> Z -> Z * string;
  w_ftdi_eeprom_initdefaults : string -> string -> string -> Z;
  w_ftdi_eeprom_build : Z;
  w_ftdi_write_eeprom : Z;
  libusb_strerror : Z -> string
}.

Section Main.

Variable w : world.

Definition call {A} (c : lib_call) (answer : A) : M A :=
  emit (ev_call c) ;; ret answer.

Definition libusb_init : M Z :=
  call c_libusb_init (w_libusb_init w).

(** Returns [n_devices] and the array [usb_devices]. *)
Definition libusb_get_device_list : M (Z * list usb_device) :=
  call c_libusb_get_device_list
    match w_libusb_get_device_list w with
    | list_error e => (Z.neg e, [])
    | list_devices l => (Z.of_nat (List.length l), l)
    end.

Definition libusb_get_bus_number (d : usb_device) : M Z :=
  call (c_libusb_get_bus_number d) (bus_number d).

Definition libusb_get_device_address (d : usb_device) : M Z :=
  call (c_libusb_get_device_address d) (device_address d).

Definition ftdi_init : M Z :=
  call c_ftdi_init (w_ftdi_init w).

Definition ftdi_usb_open_dev (d : usb_device) : M Z :=
  call (c_ftdi_usb_open_dev d) (w_ftdi_usb_open_dev w d).

(** [libusb_get_device (ftdi.usb_dev)]: the device of the handle that
    [ftdi_usb_open_dev] has opened. *)
Definition libusb_get_device (opened : usb_device) : M usb_device :=
  call (c_libusb_get_device opened) opened.

Definition libusb_get_device_descriptor (d : usb_device)
  : M (Z * libusb_device_descriptor) :=
  call (c_libusb_get_device_descriptor d)
       (w_libusb_get_device_descriptor w d).

(** Returns the value of the call and the content of [data] after it. *)
Definition libusb_get_string_descriptor_ascii (d : usb_device) (index : Z)
  (data : buffer) : M (Z * string) :=
  call (c_libusb_get_string_descriptor_ascii d index data)
       (w_libusb_get_string_descriptor_ascii w d index).

Definition ftdi_eeprom_initdefaults (m p s : string) : M Z :=
  call (c_ftdi_eeprom_initdefaults m p s)
       (w_ftdi_eeprom_initdefaults w m p s).

Definition ftdi_eeprom_build : M Z :=
  call c_ftdi_eeprom_build (w_ftdi_eeprom_build w).

Definition ftdi_write_eeprom : M Z :=
  call c_ftdi_write_eeprom (w_ftdi_write_eeprom w).

Definition ftdi_deinit : M unit :=
  call c_ftdi_deinit tt.

(** The [for] loop of lines 120 to 126 over [usb_devices[0]] ...
    [usb_devices[n_devices-1]]; [&&] asks for the address only when
    the bus number is the one looked for. *)
Fixpoint find_usb_device (usb_devices : list usb_device) (bus device : Z)
  : M (option usb_device) :=
  match usb_devices with
  | [] => ret None
  | d :: rest =>
      b <- libusb_get_bus_number d ;;
      if b =? bus then
        a <- libusb_get_device_address d ;;
        if a =? device then ret (Some d)
        else find_usb_device rest bus device
      else find_usb_device rest bus device
  end.

(** [if (x == NULL) x = orig_x;] *)
Definition or_orig (x : option string) (orig : string) : string :=
  match x with
  | Some s => s
  | None => orig
  end.

(** Lines 132 to 197, once [usb_device] is known. *)
Definition program_device (o : options) (usb_device : usb_device) : M Z :=
  ires <- ftdi_init ;;
  when (negb (ires =? 0))
    (fprintf stderr "ERROR: Unable to initialize libftdi (%d)\n" [arg_d ires] ;;
     Return EXIT_FAILURE) ;;
  ires <- ftdi_usb_open_dev usb_device ;;
  when (negb (ires =? 0))
    (fprintf stderr "ERROR: Unable to open device (%d)\n" [arg_d ires] ;;
     fprintf stderr "       Perhaps you don't have sufficient permissions (i.e., you aren't root)?\n" [] ;;
     Return EXIT_FAILURE) ;;
  dev <- libusb_get_device usb_device ;;
  r <- libusb_get_device_descriptor dev ;;
  let (ires, desc) := r in
  when (ires <? 0)
    (fprintf stderr "ERROR: Unable to retrieve device descriptor (%d): %s\n"
       [arg_d ires; arg_s (libusb_strerror w ires)] ;;
     Return EXIT_FAILURE) ;;
  r <- libusb_get_string_descriptor_ascii usb_device (iManufacturer desc) orig_manufacturer ;;
  let (ires, old_manufacturer) := r in
  when (ires <? 0)
    (fprintf stderr "ERROR: Unable to retrieve manufacturer (%d): %s\n"
       [arg_d ires; arg_s (libusb_strerror w ires)] ;;
     Return EXIT_FAILURE) ;;
  print_verbose o "Old manufacturer: %s\n" [arg_s old_manufacturer] ;;
  let manufacturer := or_orig (manufacturer o) old_manufacturer in
  r <- libusb_get_string_descriptor_ascii usb_device (iProduct desc) orig_product ;;
  let (ires, old_product) := r in
  when (ires <? 0)
    (fprintf stderr "ERROR: Unable to retrieve product (%d): %s\n"
       [arg_d ires; arg_s (libusb_strerror w ires)] ;;
     Return EXIT_FAILURE) ;;
  print_verbose o "Old product:      %s\n" [arg_s old_product] ;;
  let product := or_orig (product o) old_product in
  r <- libusb_get_string_descriptor_ascii usb_device (iSerialNumber desc) orig_serial ;;
  let (ires, old_serial) := r in
  when (ires <? 0)
    (fprintf stderr "ERROR: Unable to retrieve serial (%d): %s\n"
       [arg_d ires; arg_s (libusb_strerror w ires)] ;;
     Return EXIT_FAILURE) ;;
  print_verbose o "Old serial:       %s\n" [arg_s old_serial] ;;
  let serial := or_orig (serial o) old_serial in
  print_verbose o "New manufacturer: %s\n" [arg_s manufacturer] ;;
  print_verbose o "New product:      %s\n" [arg_s product] ;;
  print_verbose o "New serial:       %s\n" [arg_s serial] ;;
  ires <- ftdi_eeprom_initdefaults manufacturer product serial ;;
  when (ires <? 0)
    (fprintf stderr "Unable to set EEPROM defaults: %d\n" [arg_d ires] ;;
     Return EXIT_FAILURE) ;;
  ires <- ftdi_eeprom_build ;;
  when (ires <? 0)
    (fprintf stderr "Unable to build EEPROM: %d\n" [arg_d ires] ;;
     Return EXIT_FAILURE) ;;
  ires <- ftdi_write_eeprom ;;
  when (ires <? 0)
    (fprintf stderr "Unable to write EEPROM: %d\n" [arg_d ires] ;;
     Return EXIT_FAILURE) ;;
  ftdi_deinit ;;
  Return EXIT_SUCCESS.

(** Lines 100 to 130, then [program_device].  [bus] and [device] are
    -1 before [parse_device_identifier] is called. *)
Definition after_options (cl : cmdline) (o : options) : M Z :=
  let p := parse_device_identifier (-1) (-1) (argv_at cl (optind cl)) in
  let bus := p_bus p in
  let device := p_device p in
  (if negb (optind cl + 1 =? argc cl) then
     print_help cl ;;
     Return EXIT_FAILURE
   else
     when (negb (p_ok p))
       (fprintf stderr "Unable to parse `%s'\n"
          [arg_s (argv_at cl (optind cl))] ;;
        Return EXIT_FAILURE) ;;
     print_verbose o "Using device %03d:%03d\n" [arg_d bus; arg_d device]) ;;
  libusb_init ;;
  r <- libusb_get_device_list ;;
  let (n_devices, usb_devices) := r in
  when (n_devices <? 0)
    (fprintf stderr "ERROR: Unable to list USB devices [%zd]: %s\n"
       [arg_d n_devices; arg_s (libusb_strerror w n_devices)] ;;
     Return EXIT_FAILURE) ;;
  found <- find_usb_device usb_devices bus device ;;
  match found with
  | None =>
      fprintf stderr "ERROR: Unable to find USB device at %03d:%03d\n"
        [arg_d bus; arg_d device] ;;
      Return EXIT_FAILURE
  | Some usb_device => program_device o usb_device
  end.

Definition main (cl : cmdline) : M Z :=
  o <- option_loop cl (getopt_long cl) initial_options ;;
  after_options cl o.

End Main.

(** ** Vocabulary of the specification

    The words the properties below are stated in; none of them is used
    by [main]. *)

(** The library calls of a trace, in order. *)
Fixpoint calls (t : list event) : list lib_call :=
  match t with
  | [] => []
  | ev_call c :: r => c :: calls r
  | ev_fprintf _ _ _ :: r => calls r
  | ev_getopt_long_message :: r => calls r
  end.

(** The [fprintf]s of a trace to one stream, in order. *)
Definition to_stream (f : stream) (e : event) : bool :=
  match e, f with
  | ev_fprintf stdout _ _, stdout => true
  | ev_fprintf stderr _ _, stderr => true
  | ev_getopt_long_message, stderr => true
  | _, _ => false
  end.

Definition printed (f : stream) (t : list event) : list event :=
  filter (to_stream f) t.

(** The answers of [getopt_long] that the option loop can see: those
    before the first -1. *)
Fixpoint before_end (l : list getopt_answer) : list getopt_answer :=
  match l with
  | [] => []
  | a :: r => if g_c a =? -1 then [] else a :: before_end r
  end.

Definition options_seen (cl : cmdline) : list getopt_answer :=
  before_end (getopt_long cl).

Definition is_option (c : ascii) (a : getopt_answer) : bool :=
  g_c a =? ch c.

(** [-h] or [--help] is among the options. *)
Definition help_requested (cl : cmdline) : bool :=
  existsb (is_option "h") (options_seen cl).

(** [-v] or [--verbose] is among the options. *)
Definition verbose_requested (cl : cmdline) : bool :=
  existsb (is_option "v") (options_seen cl).

(** The option [c] does not occur. *)
Definition omitted (c : ascii) (l : list getopt_answer) : Prop :=
  forall a, In a l -> g_c a <> ch c.

(** The option [c] occurs, and its last occurrence has the argument [x]. *)
Definition given (c : ascii) (x : string) (l : list getopt_answer) : Prop :=
  exists before after,
    l = before ++ Answer (ch c) (Some x) :: after /\ omitted c after.

(** The argument of the last occurrence of the option [c], if any. *)
Definition last_optarg (c : ascii) (l : list getopt_answer)
  (init : option string) : option string :=
  fold_left (fun acc a => if is_option c a then g_optarg a else acc) l init.

(** The locals of [main] once the option loop is over. *)
Definition options_of (cl : cmdline) : options :=
  Options (last_optarg "m" (options_seen cl) None)
          (last_optarg "p" (options_seen cl) None)
          (last_optarg "s" (options_seen cl) None)
          (verbose_requested cl).

(** The number of non-option arguments. *)
Definition positional_count (cl : cmdline) : Z := argc cl - optind cl.

(** The positional argument [bus:device], and what it parses to, [bus]
    and [device] being -1 before. *)
Definition identifier (cl : cmdline) : string := argv_at cl (optind cl).

Definition selection (cl : cmdline) : parsed :=
  parse_device_identifier (-1) (-1) (identifier cl).

Definition matches (cl : cmdline) (d : usb_device) : bool :=
  (bus_number d =? p_bus (selection cl)) &&
  (device_address d =? p_device (selection cl)).

(** The calls of the search through the device list: the bus number of
    each device up to the first match, and the address of those on the
    right bus. *)
Fixpoint probes (cl : cmdline) (l : list usb_device) : list lib_call :=
  match l with
  | [] => []
  | d :: r =>
      if bus_number d =? p_bus (selection cl) then
        c_libusb_get_bus_number d :: c_libusb_get_device_address d ::
          (if device_address d =? p_device (selection cl) then []
           else probes cl r)
      else c_libusb_get_bus_number d :: probes cl r
  end.

(** The checks of [main], in the order of the source. *)
Inductive step :=
| s_arguments        (* one positional argument *)
| s_identifier       (* it parses *)
| s_enumerate        (* libusb_get_device_list *)
| s_select           (* a device at bus:device *)
| s_ftdi_init
| s_open             (* ftdi_usb_open_dev *)
| s_descriptor       (* libusb_get_device_descriptor *)
| s_manufacturer     (* the three string descriptors *)
| s_product
| s_serial
| s_initdefaults     (* ftdi_eeprom_initdefaults *)
| s_build            (* ftdi_eeprom_build *)
| s_write            (* ftdi_write_eeprom *)
| s_close.           (* ftdi_deinit, which cannot fail *)

Definition rank (s : step) : nat :=
  match s with
  | s_arguments => 0 | s_identifier => 1 | s_enumerate => 2
  | s_select => 3 | s_ftdi_init => 4 | s_open => 5 | s_descriptor => 6
  | s_manufacturer => 7 | s_product => 8 | s_serial => 9
  | s_initdefaults => 10 | s_build => 11 | s_write => 12 | s_close => 13
  end%nat.

(** The step a library call belongs to. *)
Definition step_of (c : lib_call) : step :=
  match c with
  | c_libusb_init | c_libusb_get_device_list => s_enumerate
  | c_libusb_get_bus_number _ | c_libusb_get_device_address _ => s_select
  | c_ftdi_init => s_ftdi_init
  | c_ftdi_usb_open_dev _ => s_open
  | c_libusb_get_device _ | c_libusb_get_device_descriptor _ => s_descriptor
  | c_libusb_get_string_descriptor_ascii _ _ orig_manufacturer =>
      s_manufacturer
  | c_libusb_get_string_descriptor_ascii _ _ orig_product => s_product
  | c_libusb_get_string_descriptor_ascii _ _ orig_serial => s_serial
  | c_ftdi_eeprom_initdefaults _ _ _ => s_initdefaults
  | c_ftdi_eeprom_build => s_build
  | c_ftdi_write_eeprom => s_write
  | c_ftdi_deinit => s_close
  end.

(** How a run ends: with the help screen, at the first check that
    fails, or after the EEPROM has been written. *)
Inductive verdict :=
| Helped
| Failed (at_step : step)
| Succeeded.

Section Verdict.

Variable w : world.
Variable cl : cmdline.

(** The device descriptor and the three strings read from [d]. *)
Definition descriptor_of (d : usb_device) : libusb_device_descriptor :=
  snd (w_libusb_get_device_descriptor w d).

Definition read_string (d : usb_device) (index : Z) : Z * string :=
  w_libusb_get_string_descriptor_ascii w d index.

Definition device_manufacturer (d : usb_device) : string :=
  snd (read_string d (iManufacturer (descriptor_of d))).
Definition device_product (d : usb_device) : string :=
  snd (read_string d (iProduct (descriptor_of d))).
Definition device_serial (d : usb_device) : string :=
  snd (read_string d (iSerialNumber (descriptor_of d))).

(** The three strings that go into the EEPROM of [d]. *)
Definition new_manufacturer (d : usb_device) : string :=
  or_orig (manufacturer (options_of cl)) (device_manufacturer d).
Definition new_product (d : usb_device) : string :=
  or_orig (product (options_of cl)) (device_product d).
Definition new_serial (d : usb_device) : string :=
  or_orig (serial (options_of cl)) (device_serial d).

Definition verdict_on (d : usb_device) : verdict :=
  if negb (w_ftdi_init w =? 0) then Failed s_ftdi_init
  else if negb (w_ftdi_usb_open_dev w d =? 0) then Failed s_open
  else if fst (w_libusb_get_device_descriptor w d) <? 0
    then Failed s_descriptor
  else if fst (read_string d (iManufacturer (descriptor_of d))) <? 0
    then Failed s_manufacturer
  else if fst (read_string d (iProduct (descriptor_of d))) <? 0
    then Failed s_product
  else if fst (read_string d (iSerialNumber (descriptor_of d))) <? 0
    then Failed s_serial
  else if w_ftdi_eeprom_initdefaults w
            (new_manufacturer d) (new_product d) (new_serial d) <? 0
    then Failed s_initdefaults
  else if w_ftdi_eeprom_build w <? 0 then Failed s_build
  else if w_ftdi_write_eeprom w <? 0 then Failed s_write
  else Succeeded.

(** The device that is selected: the first one of the list at
    bus:device. *)
Definition selected : option usb_device :=
  match w_libusb_get_device_list w with
  | list_error _ => None
  | list_devices l => find (matches cl) l
  end.

Definition verdict_of : verdict :=
  if help_requested cl then Helped
  else if negb (positional_count cl =? 1) then Failed s_arguments
  else if negb (p_ok (selection cl)) then Failed s_identifier
  else match w_libusb_get_device_list w with
       | list_error _ => Failed s_enumerate
       | list_devices l =>
           match find (matches cl) l with
           | None => Failed s_select
           | Some d => verdict_on d
           end
       end.

(** The library calls of a run that succeeds on the device [d] of the
    list [l]. *)
Definition session (l : list usb_device) (d : usb_device)
  : list lib_call :=
  [c_libusb_init; c_libusb_get_device_list] ++
  probes cl l ++
  [c_ftdi_init;
   c_ftdi_usb_open_dev d;
   c_libusb_get_device d;
   c_libusb_get_device_descriptor d;
   c_libusb_get_string_descriptor_ascii d
     (iManufacturer (descriptor_of d)) orig_manufacturer;
   c_libusb_get_string_descriptor_ascii d
     (iProduct (descriptor_of d)) orig_product;
   c_libusb_get_string_descriptor_ascii d
     (iSerialNumber (descriptor_of d)) orig_serial;
   c_ftdi_eeprom_initdefaults
     (new_manufacturer d) (new_product d) (new_serial d);
   c_ftdi_eeprom_build;
   c_ftdi_write_eeprom;
   c_ftdi_deinit].

End Verdict.

(** The help screen, as a trace. *)
Definition help_screen (cl : cmdline) : list event :=
  fst (print_help cl).

(** The text of the help screen for the program name [prog]. *)
Definition usage_text (prog : string) : list event :=
  [ev_fprintf stdout "USAGE: %s [OPTIONS] bus:device\n" [arg_s prog];
   ev_fprintf stdout "Use lsusb to find the bus and device numbers.\n" [];
   ev_fprintf stdout "Options:\n" [];
   ev_fprintf stdout "  -m, --manufacturer=MFG Set the manufacturer to the specified value\n" [];
   ev_fprintf stdout "  -p, --product=PRODUCT  Set the product to the specified value\n" [];
   ev_fprintf stdout "  -s, --serial=SERIAL    Set the serial to the specified value\n" [];
   ev_fprintf stdout "  -v, --verbose          Verbose output\n" [];
   ev_fprintf stdout "  -h, --help             Print this help screen and exit\n" [];
   ev_fprintf stdout "Report bugs to <https://github.com/nemequ/ftdi-eeprom>\n" []].

(** The answers before the first [-h] or [--help]. *)
Fixpoint before_help (l : list getopt_answer) : list getopt_answer :=
  match l with
  | [] => []
  | a :: r => if is_option "h" a then [] else a :: before_help r
  end.

(** The messages of [getopt_long] in a run: one for each option it
    rejects before the option loop is left. *)
Definition getopt_messages (cl : cmdline) : list event :=
  map (fun _ => ev_getopt_long_message)
      (filter (is_option "?") (before_help (options_seen cl))).

(** The events that are of [main]'s making. *)
Definition own (e : event) : bool :=
  match e with
  | ev_getopt_long_message => false
  | _ => true
  end.

(** The calls of a list that belong to the steps up to [s]. *)
Definition upto (s : step) (l : list lib_call) : list lib_call :=
  filter (fun c => (rank (step_of c) <=? rank s)%nat) l.

(** The library calls [cs] of a run with the verdict [v]: none before
    the enumeration, and afterwards those of the session up to the step
    that fails. *)
Definition calls_by_verdict (w : world) (cl : cmdline) (v : verdict)
  (cs : list lib_call) : Prop :=
  match v with
  | Helped | Failed s_arguments | Failed s_identifier => cs = []
  | Failed s_enumerate => cs = [c_libusb_init; c_libusb_get_device_list]
  | Failed s_select =>
      exists l,
        w_libusb_get_device_list w = list_devices l /\
        find (matches cl) l = None /\
        cs = [c_libusb_init; c_libusb_get_device_list] ++ probes cl l
  | Failed s_close => False
  | Failed s =>
      exists l d,
        w_libusb_get_device_list w = list_devices l /\
        find (matches cl) l = Some d /\
        cs = upto s (session w cl l d)
  | Succeeded =>
      exists l d,
        w_libusb_get_device_list w = list_devices l /\
        find (matches cl) l = Some d /\
        cs = session w cl l d
  end.

(** The last event of a trace is an [fprintf] to [stderr]. *)
Definition ends_with_diagnostic (t : list event) : Prop :=
  exists t' fmt a, t = t' ++ [ev_fprintf stderr fmt a].

(** The world [w] with another answer to [libusb_init]. *)
Definition with_libusb_init (z : Z) (w : world) : world :=
  World z (w_libusb_get_device_list w) (w_ftdi_init w)
    (w_ftdi_usb_open_dev w) (w_libusb_get_device_descriptor w)
    (w_libusb_get_string_descriptor_ascii w)
    (w_ftdi_eeprom_initdefaults w) (w_ftdi_eeprom_build w)
    (w_ftdi_write_eeprom w) (libusb_strerror w).

(** ** Sample runs

    A bus with two devices, the second one an FTDI adapter at 001:002,
    and some command lines as [getopt_long] reports them. *)

Module Sample.

Definition hub : usb_device := UsbDevice 0 1 1.
Definition adapter : usb_device := UsbDevice 1 1 2.

Definition strings (d : usb_device) (index : Z) : Z * string :=
  if index =? 1 then (4, "FTDI")
  else if index =? 2 then (6, "FT232R")
  else if index =? 3 then (8, "A9X1Y2Z3")
  else (-2, "").

(** Every call succeeds. *)
Definition healthy : world :=
  World 0 (list_devices [hub; adapter]) 0 (fun _ => 0)
    (fun _ => (0, DeviceDescriptor 1 2 3)) strings
    (fun _ _ _ => 0) 128 0 (fun _ => "error").

(** [ftdi_usb_open_dev] fails with -4 (no permission, say). *)
Definition locked : world :=
  World 0 (list_devices [hub; adapter]) 0 (fun _ => -4)
    (fun _ => (0, DeviceDescriptor 1 2 3)) strings
    (fun _ _ _ => 0) 128 0 (fun _ => "error").

(** [libusb_init] fails with LIBUSB_ERROR_OTHER, and so does the
    enumeration after it. *)
Definition no_usb : world :=
  World (-99) (list_error 99) 0 (fun _ => 0)
    (fun _ => (0, DeviceDescriptor 1 2 3)) strings
    (fun _ _ _ => 0) 128 0 (fun _ => "Other error").

(** [ftdi-eeprom 1:2] *)
Definition plain : cmdline :=
  Cmdline "ftdi-eeprom" ["1:2"] [] 1.

(** [ftdi-eeprom -s XYZ 1:2] *)
Definition new_serial_only : cmdline :=
  Cmdline "ftdi-eeprom" ["-s"; "XYZ"; "1:2"]
    [Answer (ch "s") (Some "XYZ")] 3.

(** [ftdi-eeprom -h] *)
Definition help_only : cmdline :=
  Cmdline "ftdi-eeprom" ["-h"] [Answer (ch "h") None] 2.

(** [ftdi-eeprom] *)
Definition no_argument : cmdline :=
  Cmdline "ftdi-eeprom" [] [] 1.

(** [ftdi-eeprom 1:2:3] *)
Definition bad_identifier : cmdline :=
  Cmdline "ftdi-eeprom" ["1:2:3"] [] 1.

End Sample.

(** ** Vocabulary of the further properties *)

(** The string has a colon somewhere. *)
Fixpoint has_colon (s : string) : bool :=
  match s with
  | String c r => (c =? ":")%char || has_colon r
  | EmptyString => false
  end.

(** The string is made of white space. *)
Fixpoint all_space (s : string) : bool :=
  match s with
  | String c r => isspace c && all_space r
  | EmptyString => true
  end.

(** A text after which no number of base 0 goes on: it is empty, or its
    first character is neither a digit, nor a letter that is a digit in
    base 16, nor [x] or [X]. *)
Definition ends_number (k : string) : bool :=
  match k with
  | String c _ => negb (is_digit 16 c) && negb (is_x c)
  | EmptyString => true
  end.

Definition starts_with_colon (k : string) : bool :=
  match k with
  | String c _ => (c =? ":")%char
  | EmptyString => false
  end.

(** The number that a numeral writes, as a mathematical integer: each
    digit counts for its place. *)
Fixpoint digits_value (base : Z) (s : string) : Z :=
  match s with
  | String c r =>
      match digit_value c with
      | Some d => d * base ^ Z.of_nat (String.length r) + digits_value base r
      | None => 0
      end
  | EmptyString => 0
  end.

(** The digits are hexadecimal after [0x] or [0X], octal after another
    leading [0], decimal otherwise. *)
Definition unsigned_value (s : string) : Z :=
  match s with
  | String c (String x h) =>
      if (c =? "0")%char then
        if is_x x then digits_value 16 h else digits_value 8 (String x h)
      else digits_value 10 s
  | _ => digits_value 10 s
  end.

Definition written_value (s : string) : Z :=
  match s with
  | String c r =>
      if (c =? "-")%char then - unsigned_value r
      else if (c =? "+")%char then unsigned_value r
      else unsigned_value s
  | EmptyString => 0
  end.

(** The options [main] has a [case] for, and the end of the options. *)
Definition known (a : getopt_answer) : bool :=
  (g_c a =? -1) || is_option "m" a || is_option "p" a || is_option "s" a ||
  is_option "v" a || is_option "h" a.

(** Two command lines that differ only by options [main] has no [case]
    for: the program name, the number of positional arguments and the
    positional argument are the same, and so are the answers of
    [getopt_long] once those [main] has no [case] for are left out. *)
Definition same_but_unknown (cl cl' : cmdline) : Prop :=
  argv0 cl = argv0 cl' /\
  positional_count cl = positional_count cl' /\
  identifier cl = identifier cl' /\
  filter known (getopt_long cl) = filter known (getopt_long cl').

(** The command line without [-v] and [--verbose]. *)
Definition quiet (cl : cmdline) : cmdline :=
  Cmdline (argv0 cl) (args cl)
    (filter (fun a => negb (is_option "v" a)) (getopt_long cl)) (optind cl).

(** A value of a [uint8_t]. *)
Definition in_uint8 (z : Z) : Prop := 0 <= z <= 255.

(** The calls other than those of the search through the device list. *)
Definition not_probe (c : lib_call) : bool :=
  match step_of c with
  | s_select => false
  | _ => true
  end.

(** The format of the last diagnostic of a run that stops at a check. *)
Definition diagnostic_of (s : step) : string :=
  match s with
  | s_arguments => ""
  | s_identifier => "Unable to parse `%s'\n"
  | s_enumerate => "ERROR: Unable to list USB devices [%zd]: %s\n"
  | s_select => "ERROR: Unable to find USB device at %03d:%03d\n"
  | s_ftdi_init => "ERROR: Unable to initialize libftdi (%d)\n"
  | s_open => "       Perhaps you don't have sufficient permissions (i.e., you aren't root)?\n"
  | s_descriptor => "ERROR: Unable to retrieve device descriptor (%d): %s\n"
  | s_manufacturer => "ERROR: Unable to retrieve manufacturer (%d): %s\n"
  | s_product => "ERROR: Unable to retrieve product (%d): %s\n"
  | s_serial => "ERROR: Unable to retrieve serial (%d): %s\n"
  | s_initdefaults => "Unable to set EEPROM defaults: %d\n"
  | s_build => "Unable to build EEPROM: %d\n"
  | s_write => "Unable to write EEPROM: %d\n"
  | s_close => ""
  end.

(** The last event of a trace is an [fprintf] of [fmt] to [stderr]. *)
Definition ends_with (fmt : string) (t : list event) : Prop :=
  exists t' a, t = t' ++ [ev_fprintf stderr fmt a].

(** What [-v] adds to the standard error stream in a run that succeeds
    on the device [d]. *)
Definition verbose_lines (w : world) (cl : cmdline) (d : usb_device)
  : list event :=
  [ev_fprintf stderr "Using device %03d:%03d\n"
     [arg_d (p_bus (selection cl)); arg_d (p_device (selection cl))];
   ev_fprintf stderr "Old manufacturer: %s\n"
     [arg_s (device_manufacturer w d)];
   ev_fprintf stderr "Old product:      %s\n" [arg_s (device_product w d)];
   ev_fprintf stderr "Old serial:       %s\n" [arg_s (device_serial w d)];
   ev_fprintf stderr "New manufacturer: %s\n"
     [arg_s (new_manufacturer w cl d)];
   ev_fprintf stderr "New product:      %s\n" [arg_s (new_product w cl d)];
   ev_fprintf stderr "New serial:       %s\n" [arg_s (new_serial w cl d)]].

Module Cases.

(** [ftdi-eeprom -v 1:2] *)
Definition verbose : cmdline :=
  Cmdline "ftdi-eeprom" ["-v"; "1:2"] [Answer (ch "v") None] 2.

(** [ftdi-eeprom -x -v 1:2]: [getopt_long] answers ['?'], then ['v']. *)
Definition unknown_and_verbose : cmdline :=
  Cmdline "ftdi-eeprom" ["-x"; "-v"; "1:2"]
    [Answer (ch "?") None; Answer (ch "v") None] 3.

(** [ftdi-eeprom -x 1:2]: [getopt_long] answers ['?']. *)
Definition unknown_option : cmdline :=
  Cmdline "ftdi-eeprom" ["-x"; "1:2"] [Answer (ch "?") None] 2.

(** [ftdi-eeprom -- -1:2] *)
Definition negative_bus : cmdline :=
  Cmdline "ftdi-eeprom" ["--"; "-1:2"] [] 2.

(** [ftdi-eeprom -m ACME -p Widget -s 0001 1:2] *)
Definition all_given : cmdline :=
  Cmdline "ftdi-eeprom" ["-m"; "ACME"; "-p"; "Widget"; "-s"; "0001"; "1:2"]
    [Answer (ch "m") (Some "ACME"); Answer (ch "p") (Some "Widget");
     Answer (ch "s") (Some "0001")] 7.

(** A device without a serial number string: index 0 is refused with
    LIBUSB_ERROR_INVALID_PARAM. *)
Definition no_serial : world :=
  World 0 (list_devices [Sample.hub; Sample.adapter]) 0 (fun _ => 0)
    (fun _ => (0, DeviceDescriptor 1 2 0)) Sample.strings
    (fun _ _ _ => 0) 128 0 (fun _ => "Invalid parameter").

End Cases.

(** * Properties *)

(** ** C integers *)

Lemma to_int_in_int (z : Z) : CInt.in_int (CInt.to_int z).
Proof.
  unfold CInt.in_int, CInt.to_int.
  pose proof (Z.mod_pos_bound (z + 2 ^ 31) (2 ^ 32) ltac:(lia)). lia.
Qed.

Lemma to_int_small (z : Z) : CInt.in_int z -> CInt.to_int z = z.
Proof.
  unfold CInt.in_int, CInt.to_int. intros H.
  rewrite Z.mod_small by lia. lia.
Qed.

Lemma clamp_long_small (z : Z) :
  CInt.LONG_MIN <= z <= CInt.LONG_MAX -> CInt.clamp_long z = z.
Proof.
  unfold CInt.clamp_long. intros H.
  destruct (Z.gtb_spec z CInt.LONG_MAX); [lia|].
  destruct (Z.ltb_spec z CInt.LONG_MIN); [lia|]. reflexivity.
Qed.

(** ** [strtol] on the numbers of base 0 *)

Lemma colon_ends_digits (base : Z) (t : string) :
  starts_with_digit base (String ":" t) = false.
Proof. reflexivity. Qed.

Lemma scan_digits_then (base : Z) (s k : string) :
  all_digits base s = true ->
  starts_with_digit base k = false ->
  forall acc,
    scan_digits base acc (s ++ k) = (fst (scan_digits base acc s), k).
Proof.
  intros Hs Hk. induction s as [|c r IH]; intros acc.
  - simpl. destruct k as [|c' k']; [reflexivity|].
    simpl in *. unfold is_digit in Hk.
    destruct (digit_value c') as [d|]; [rewrite Hk|]; reflexivity.
  - simpl in *. apply andb_true_iff in Hs. destruct Hs as [Hc Hr].
    unfold is_digit in Hc. destruct (digit_value c) as [d|]; [|discriminate].
    rewrite Hc. apply IH. exact Hr.
Qed.

Lemma scan_all_digits (base : Z) (s : string) :
  all_digits base s = true ->
  forall acc, snd (scan_digits base acc s) = "".
Proof.
  induction s as [|c r IH]; intros H acc; simpl in *; [reflexivity|].
  apply andb_true_iff in H. destruct H as [Hc Hr].
  unfold is_digit in Hc. destruct (digit_value c) as [d|]; [|discriminate].
  rewrite Hc. apply IH. exact Hr.
Qed.

Lemma scan_from_digits (nptr nptr' : string) (neg : bool) (b : Z)
  (s t : string) :
  nonempty s = true ->
  all_digits b s = true ->
  exists v,
    scan_from nptr neg b s = (v, "") /\
    scan_from nptr' neg b (s ++ String ":" t) = (v, String ":" t).
Proof.
  intros Hn Ha. unfold scan_from.
  rewrite (scan_digits_then b s (String ":" t) Ha (colon_ends_digits b t) 0).
  pose proof (scan_all_digits b s Ha 0) as Hs.
  destruct s as [|c r]; [discriminate|].
  simpl in Ha. apply andb_true_iff in Ha. destruct Ha as [Hc _].
  cbn [append starts_with_digit]. rewrite Hc.
  destruct (scan_digits b 0 (String c r)) as [v rest].
  simpl in Hs. subst rest. eexists. split; reflexivity.
Qed.

Lemma take_base_numeral (s t : string) :
  is_unsigned_numeral s = true ->
  exists b s2,
    nonempty s2 = true /\
    all_digits b s2 = true /\
    take_base 0 s = (b, s2) /\
    take_base 0 (s ++ String ":" t) = (b, (s2 ++ String ":" t)%string).
Proof.
  unfold is_unsigned_numeral, take_base.
  destruct s as [|c r]; [discriminate|]. cbn [append].
  destruct (Ascii.eqb_spec c "0") as [->|Hc].
  - destruct r as [|x h].
    + intros _. exists 8, "0". repeat split. destruct t; reflexivity.
    + cbn [append]. destruct (is_x x) eqn:Hx.
      * intros H. apply andb_true_iff in H. destruct H as [Hn Ha].
        destruct h as [|h0 h']; [discriminate|]. cbn [append].
        assert (Hh : is_digit 16 h0 = true).
        { simpl in Ha. apply andb_true_iff in Ha. tauto. }
        rewrite Hh. exists 16, (String h0 h'). repeat split. exact Ha.
      * intros Ha. exists 8, (String "0" (String x h)).
        split; [reflexivity|]. split.
        { change (is_digit 8 "0" && all_digits 8 (String x h) = true).
          rewrite Ha. reflexivity. }
        split; destruct h; reflexivity.
  - intros H. exists 10, (String c r). repeat split. exact H.
Qed.

Lemma convert_unsigned_numeral (nptr nptr' : string) (neg : bool)
  (s t : string) :
  is_unsigned_numeral s = true ->
  exists v,
    convert nptr 0 neg s = (v, "") /\
    convert nptr' 0 neg (s ++ String ":" t) = (v, String ":" t).
Proof.
  intros H. unfold convert.
  destruct (take_base_numeral s t H) as (b & s2 & Hn & Ha & -> & ->).
  apply scan_from_digits; assumption.
Qed.

Lemma digit_not_space (c : ascii) :
  is_digit 10 c = true ->
  isspace c = false /\ (c =? "-")%char = false /\ (c =? "+")%char = false.
Proof.
  destruct c as [[] [] [] [] [] [] [] []]; intros H;
    try discriminate H; repeat split.
Qed.

(** A number in the syntax of base 0 is converted up to its end, and a
    colon after it is where the conversion stops. *)
Lemma strtol_numeral (s t : string) :
  is_numeral s = true ->
  exists v,
    strtol s 0 = (v, "") /\
    strtol (s ++ String ":" t) 0 = (v, String ":" t).
Proof.
  unfold is_numeral, strtol. destruct s as [|c r]; [discriminate|].
  cbn [append].
  destruct (Ascii.eqb_spec c "-") as [->|Hm].
  - intros H. apply (convert_unsigned_numeral _ _ true r t H).
  - destruct (Ascii.eqb_spec c "+") as [->|Hp].
    + intros H. apply (convert_unsigned_numeral _ _ false r t H).
    + cbn [orb]. intros H.
      assert (Hd : is_digit 10 c = true).
      { unfold is_unsigned_numeral in H.
        destruct (Ascii.eqb_spec c "0") as [->|]; [reflexivity|].
        apply andb_true_iff in H. tauto. }
      destruct (digit_not_space c Hd) as (Hs & Hm' & Hp').
      cbn [skip_space]. rewrite Hs. cbn [take_sign]. rewrite Hm', Hp'.
      apply (convert_unsigned_numeral _ _ false (String c r) t H).
Qed.

(** ** [parse_device_identifier] *)

Lemma strtol_at_colon (s : string) :
  strtol (String ":" s) 0 = (0, String ":" s).
Proof. reflexivity. Qed.

(** ** The monad *)

Lemma bind_ret {A B} (a : A) (f : A -> M B) : bind (ret a) f = f a.
Proof. unfold bind, ret. destruct (f a). reflexivity. Qed.

Lemma bind_call {A B} (c : lib_call) (a : A) (f : A -> M B) :
  bind (call c a) f = (ev_call c :: fst (f a), snd (f a)).
Proof. unfold call, bind, emit, ret. simpl. destruct (f a). reflexivity. Qed.

Lemma calls_app (t u : list event) : calls (t ++ u) = calls t ++ calls u.
Proof.
  induction t as [|e t IH]; simpl; [reflexivity|].
  destruct e; simpl; rewrite IH; reflexivity.
Qed.

(** ** The option loop *)

Lemma bind_writes {B} (c : Z) (m : M B) :
  bind (getopt_long_writes c) (fun _ => m) =
  ((if c =? ch "?" then [ev_getopt_long_message] else []) ++ fst m, snd m).
Proof.
  unfold getopt_long_writes, when, bind, emit, ret.
  destruct (c =? ch "?"), m; reflexivity.
Qed.

(** The messages of [getopt_long] for the answers [l]. *)
Lemma messages_cons (c : Z) (optarg : option string)
  (l : list getopt_answer) :
  (c =? -1) = false ->
  (c =? ch "h") = false ->
  map (fun _ => ev_getopt_long_message)
      (filter (is_option "?")
              (before_help (before_end (Answer c optarg :: l)))) =
  (if c =? ch "?" then [ev_getopt_long_message] else []) ++
  map (fun _ => ev_getopt_long_message)
      (filter (is_option "?") (before_help (before_end l))).
Proof.
  intros E1 Eh. cbn [before_end g_c]. rewrite E1. cbn [before_help].
  change (is_option "h" (Answer c optarg)) with (c =? ch "h").
  rewrite Eh. cbn [filter].
  change (is_option "?" (Answer c optarg)) with (c =? ch "?").
  destruct (c =? ch "?"); reflexivity.
Qed.

Lemma option_loop_help (cl : cmdline) (l : list getopt_answer) :
  forall o,
    existsb (is_option "h") (before_end l) = true ->
    option_loop cl l o =
    (map (fun _ => ev_getopt_long_message)
         (filter (is_option "?") (before_help (before_end l))) ++
     help_screen cl,
     Exit EXIT_SUCCESS).
Proof.
  induction l as [|[c optarg] l IH]; intros o H; [discriminate H|].
  cbn [option_loop]. rewrite bind_writes.
  cbn [before_end g_c] in H.
  destruct (c =? -1) eqn:Eend; [discriminate H|].
  cbn [existsb] in H. unfold is_option at 1 in H. cbn [g_c] in H.
  destruct (Z.eqb_spec c (ch "h")) as [->|Nh].
  - reflexivity.
  - cbn [orb] in H.
    assert (Eh : (c =? ch "h") = false) by (apply Z.eqb_neq; exact Nh).
    rewrite (messages_cons c optarg l Eend Eh), <- app_assoc.
    destruct (c =? ch "m"); [now rewrite IH|].
    destruct (c =? ch "p"); [now rewrite IH|].
    destruct (c =? ch "s"); [now rewrite IH|].
    destruct (c =? ch "v"); [now rewrite IH|].
    now rewrite IH.
Qed.

Lemma option_loop_done (cl : cmdline) (l : list getopt_answer) :
  forall o,
    existsb (is_option "h") (before_end l) = false ->
    option_loop cl l o =
    (map (fun _ => ev_getopt_long_message)
         (filter (is_option "?") (before_help (before_end l))),
     Next (Options
             (last_optarg "m" (before_end l) (manufacturer o))
             (last_optarg "p" (before_end l) (product o))
             (last_optarg "s" (before_end l) (serial o))
             (verbose_mode o || existsb (is_option "v") (before_end l)))).
Proof.
  induction l as [|[c optarg] l IH]; intros o H.
  - simpl. rewrite orb_false_r. destruct o; reflexivity.
  - cbn [option_loop]. rewrite bind_writes.
    cbn [before_end g_c] in *.
    destruct (Z.eqb_spec c (-1)) as [->|Nend].
    + simpl. rewrite orb_false_r. destruct o; reflexivity.
    + cbn [existsb] in H. unfold is_option at 1 in H. cbn [g_c] in H.
      apply orb_false_iff in H. destruct H as [Eh H].
      assert (Eend : (c =? -1) = false) by (apply Z.eqb_neq; exact Nend).
      pose proof (messages_cons c optarg l Eend Eh) as Em.
      cbn [before_end g_c] in Em. rewrite Eend in Em. rewrite Em.
      unfold last_optarg, is_option. cbn [fold_left existsb g_c].
      destruct (Z.eqb_spec c (ch "m")) as [->|Nm];
        [rewrite (IH _ H); reflexivity|].
      destruct (Z.eqb_spec c (ch "p")) as [->|Np];
        [rewrite (IH _ H); reflexivity|].
      destruct (Z.eqb_spec c (ch "s")) as [->|Ns];
        [rewrite (IH _ H); reflexivity|].
      destruct (Z.eqb_spec c (ch "v")) as [->|Nv];
        [rewrite (IH _ H); cbn [fst snd verbose_mode manufacturer product
                                  serial orb];
         rewrite orb_true_r; reflexivity|].
      rewrite Eh, (IH _ H). cbn [orb]. reflexivity.
Qed.

(** ** The search through the device list *)

Lemma find_usb_device_run (w : world) (cl : cmdline) (l : list usb_device) :
  find_usb_device l (p_bus (selection cl)) (p_device (selection cl)) =
  (map ev_call (probes cl l), Next (find (matches cl) l)).
Proof.
  induction l as [|d l IH]; [reflexivity|].
  cbn [find_usb_device probes find].
  unfold libusb_get_bus_number, libusb_get_device_address, matches.
  rewrite bind_call.
  destruct (bus_number d =? p_bus (selection cl)).
  - rewrite bind_call by exact w.
    destruct (device_address d =? p_device (selection cl)); cbn.
    + reflexivity.
    + fold (matches cl). rewrite IH. reflexivity.
  - cbn. fold (matches cl). rewrite IH. reflexivity.
Qed.

Lemma find_first {A} (f : A -> bool) (l : list A) (d : A) :
  find f l = Some d ->
  exists before after,
    l = before ++ d :: after /\
    f d = true /\
    forall x, In x before -> f x = false.
Proof.
  induction l as [|a l IH]; simpl; [discriminate|].
  destruct (f a) eqn:Fa.
  - intros [= ->]. exists [], l. simpl. tauto.
  - intros H. destruct (IH H) as (before & after & -> & Fd & Hb).
    exists (a :: before), after. simpl. split; [reflexivity|].
    split; [exact Fd|]. intros x [<-|Hx]; auto.
Qed.

Lemma calls_map_call (l : list lib_call) : calls (map ev_call l) = l.
Proof. induction l; simpl; congruence. Qed.

(** ** [main], by cases *)

Lemma calls_messages (cl : cmdline) : calls (getopt_messages cl) = [].
Proof.
  unfold getopt_messages.
  induction (filter (is_option "?") (before_help (options_seen cl)));
    simpl; auto.
Qed.

Lemma stdout_messages (cl : cmdline) :
  filter (to_stream stdout) (getopt_messages cl) = [].
Proof.
  unfold getopt_messages.
  induction (filter (is_option "?") (before_help (options_seen cl)));
    simpl; auto.
Qed.

Lemma stderr_messages (cl : cmdline) :
  filter (to_stream stderr) (getopt_messages cl) = getopt_messages cl.
Proof.
  unfold getopt_messages.
  induction (filter (is_option "?") (before_help (options_seen cl)));
    simpl; congruence.
Qed.

Lemma main_help (w : world) (cl : cmdline) :
  help_requested cl = true ->
  main w cl = (getopt_messages cl ++ help_screen cl, Exit EXIT_SUCCESS).
Proof.
  intros H. unfold main.
  rewrite (option_loop_help cl (getopt_long cl) initial_options H).
  reflexivity.
Qed.

Lemma main_no_help (w : world) (cl : cmdline) :
  help_requested cl = false ->
  main w cl =
  (getopt_messages cl ++ fst (after_options w cl (options_of cl)),
   snd (after_options w cl (options_of cl))).
Proof.
  intros H. unfold main.
  rewrite (option_loop_done cl (getopt_long cl) initial_options H).
  unfold bind. cbn [manufacturer product serial verbose_mode
                      initial_options orb].
  fold (options_seen cl). fold (getopt_messages cl).
  change (Options (last_optarg "m" (options_seen cl) None)
                  (last_optarg "p" (options_seen cl) None)
                  (last_optarg "s" (options_seen cl) None)
                  (existsb (is_option "v") (options_seen cl)))
    with (options_of cl).
  destruct (after_options w cl (options_of cl)). reflexivity.
Qed.

(** A run that is not a help request is the messages of [getopt_long]
    followed by the run of what comes after the option loop. *)
Lemma trace_main (w : world) (cl : cmdline) :
  help_requested cl = false ->
  trace (run (main w cl)) =
  getopt_messages cl ++ trace (run (after_options w cl (options_of cl))).
Proof. intros H. rewrite (main_no_help w cl H). reflexivity. Qed.

Lemma status_main (w : world) (cl : cmdline) :
  help_requested cl = false ->
  status (run (main w cl)) =
  status (run (after_options w cl (options_of cl))).
Proof. intros H. rewrite (main_no_help w cl H). reflexivity. Qed.

Lemma calls_main (w : world) (cl : cmdline) :
  help_requested cl = false ->
  calls (trace (run (main w cl))) =
  calls (trace (run (after_options w cl (options_of cl)))).
Proof.
  intros H. rewrite (trace_main w cl H), calls_app, calls_messages.
  reflexivity.
Qed.

Lemma stdout_main (w : world) (cl : cmdline) :
  help_requested cl = false ->
  printed stdout (trace (run (main w cl))) =
  printed stdout (trace (run (after_options w cl (options_of cl)))).
Proof.
  intros H. unfold printed.
  rewrite (trace_main w cl H), filter_app, stdout_messages. reflexivity.
Qed.

Lemma stderr_main (w : world) (cl : cmdline) :
  help_requested cl = false ->
  printed stderr (trace (run (main w cl))) =
  getopt_messages cl ++
  printed stderr (trace (run (after_options w cl (options_of cl)))).
Proof.
  intros H. unfold printed.
  rewrite (trace_main w cl H), filter_app, stderr_messages. reflexivity.
Qed.

Lemma arguments_check (cl : cmdline) :
  (optind cl + 1 =? argc cl) = (positional_count cl =? 1).
Proof.
  unfold positional_count.
  destruct (Z.eqb_spec (optind cl + 1) (argc cl)),
           (Z.eqb_spec (argc cl - optind cl) 1); auto; lia.
Qed.

Lemma list_error_negative (e : positive) : (Z.neg e <? 0) = true.
Proof. reflexivity. Qed.

Lemma list_length_nonnegative {A} (l : list A) :
  (Z.of_nat (List.length l) <? 0) = false.
Proof. apply Z.ltb_ge. lia. Qed.

Ltac unfold_main :=
  unfold after_options, program_device, print_verbose, when,
    libusb_init, libusb_get_device_list, ftdi_init, ftdi_usb_open_dev,
    libusb_get_device, libusb_get_device_descriptor,
    libusb_get_string_descriptor_ascii, ftdi_eeprom_initdefaults,
    ftdi_eeprom_build, ftdi_write_eeprom, ftdi_deinit, fprintf, call,
    verdict_of, verdict_on, selected,
    new_manufacturer, new_product, new_serial,
    device_manufacturer, device_product, device_serial,
    descriptor_of, read_string in *.

Ltac case_step w cl :=
  match goal with
  | |- context [find_usb_device ?l _ _] =>
      rewrite (find_usb_device_run w cl l)
  | |- context [w_libusb_get_device_list w] =>
      destruct (w_libusb_get_device_list w) as [?e|?l] eqn:?
  | |- context [find (matches cl) ?l] =>
      destruct (find (matches cl) l) as [?d|] eqn:?
  | |- context [w_libusb_get_device_descriptor w ?d] =>
      destruct (w_libusb_get_device_descriptor w d) as [?ires ?desc] eqn:?
  | |- context [w_libusb_get_string_descriptor_ascii w ?d ?i] =>
      destruct (w_libusb_get_string_descriptor_ascii w d i)
        as [?ires ?old] eqn:?
  | |- context [if ?c then _ else _] => destruct c eqn:?
  end.

Ltac reduce_main :=
  rewrite ?list_error_negative, ?list_length_nonnegative;
  cbn [bind ret Return emit negb fst snd run trace status app].

Ltac main_cases w cl H :=
  rewrite ?(calls_main w cl H), ?(stdout_main w cl H),
    ?(stderr_main w cl H), ?(status_main w cl H), ?(trace_main w cl H);
  unfold_main;
  fold (identifier cl); fold (selection cl);
  rewrite ?H, (arguments_check cl);
  reduce_main;
  repeat (case_step w cl; reduce_main).

(** ** Facts about the vocabulary *)

Lemma In_probes (cl : cmdline) (l : list usb_device) (c : lib_call) :
  In c (probes cl l) -> step_of c = s_select.
Proof.
  induction l as [|d l IH]; simpl; [tauto|].
  destruct (bus_number d =? p_bus (selection cl)).
  - destruct (device_address d =? p_device (selection cl)); simpl;
      intuition (subst; auto).
  - simpl. intuition (subst; auto).
Qed.

Lemma filter_probes (cl : cmdline) (l : list usb_device) (n : nat) :
  (3 <= n)%nat ->
  filter (fun c => (rank (step_of c) <=? n)%nat) (probes cl l) = probes cl l.
Proof.
  intros Hn. apply forallb_filter_id.
  apply forallb_forall. intros c Hc.
  rewrite (In_probes cl l c Hc). apply Nat.leb_le. exact Hn.
Qed.

Lemma In_upto (s : step) (l : list lib_call) (c : lib_call) :
  In c (upto s l) -> In c l /\ (rank (step_of c) <= rank s)%nat.
Proof.
  unfold upto. rewrite filter_In. intros [H1 H2].
  split; [exact H1 | now apply Nat.leb_le].
Qed.

Lemma last_optarg_omitted (c : ascii) (l : list getopt_answer) :
  forall init, omitted c l -> last_optarg c l init = init.
Proof.
  unfold last_optarg.
  induction l as [|a l IH]; intros init H; simpl; [reflexivity|].
  assert (Ha : is_option c a = false).
  { apply Z.eqb_neq. apply H. left. reflexivity. }
  rewrite Ha. apply IH. intros b Hb. apply H. right. exact Hb.
Qed.

Lemma last_optarg_given (c : ascii) (x : string) (l : list getopt_answer) :
  forall init, given c x l -> last_optarg c l init = Some x.
Proof.
  intros init (before & after & -> & Hafter).
  unfold last_optarg. rewrite fold_left_app. simpl.
  unfold is_option at 2. simpl g_c. rewrite Z.eqb_refl.
  apply last_optarg_omitted. exact Hafter.
Qed.

(** ** What a run does, verdict by verdict *)

Lemma run_help (w : world) (cl : cmdline) :
  help_requested cl = true ->
  run (main w cl) =
  Process (getopt_messages cl ++ help_screen cl) EXIT_SUCCESS.
Proof. intros H. rewrite (main_help w cl H). reflexivity. Qed.

Lemma calls_help (cl : cmdline) :
  calls (getopt_messages cl ++ help_screen cl) = [].
Proof. rewrite calls_app, calls_messages. reflexivity. Qed.

Lemma verdict_help (w : world) (cl : cmdline) :
  verdict_of w cl = Helped <-> help_requested cl = true.
Proof.
  split.
  - destruct (help_requested cl) eqn:H; [reflexivity|].
    unfold_main. rewrite H.
    repeat (case_step w cl; reduce_main); discriminate.
  - intros H. unfold verdict_of. rewrite H. reflexivity.
Qed.

Lemma run_status (w : world) (cl : cmdline) :
  status (run (main w cl)) =
  match verdict_of w cl with
  | Helped | Succeeded => EXIT_SUCCESS
  | Failed _ => EXIT_FAILURE
  end.
Proof.
  destruct (help_requested cl) eqn:H.
  - rewrite (run_help w cl H).
    rewrite (proj2 (verdict_help w cl) H). reflexivity.
  - main_cases w cl H; reflexivity.
Qed.

Ltac recall_answers :=
  repeat match goal with
         | E : ?x = (_, _) |- context [?x] => rewrite E; cbn [fst snd]
         end.

Ltac reduce_calls :=
  unfold session, new_manufacturer, new_product, new_serial,
    device_manufacturer, device_product, device_serial,
    descriptor_of, read_string;
  recall_answers;
  cbn [calls app upto filter step_of rank Nat.leb];
  rewrite ?calls_app, ?calls_map_call, ?filter_app;
  cbn [calls app upto filter step_of rank Nat.leb];
  rewrite ?filter_probes by (cbn; lia);
  rewrite ?app_nil_r.

Lemma run_calls (w : world) (cl : cmdline) :
  calls_by_verdict w cl (verdict_of w cl) (calls (trace (run (main w cl)))).
Proof.
  destruct (help_requested cl) eqn:H.
  - rewrite (run_help w cl H).
    rewrite (proj2 (verdict_help w cl) H). exact (calls_help cl).
  - main_cases w cl H.
    all: unfold calls_by_verdict.
    all: try reflexivity.
    all: try (eexists; split; [eassumption|];
              split; [eassumption|]; reduce_calls; reflexivity).
    all: eexists; eexists; split; [eassumption|];
      split; [eassumption|]; reduce_calls; reflexivity.
Qed.

(** A run that is not a help request and has not exactly one positional
    argument prints the help screen and fails. *)
Lemma run_arguments (w : world) (cl : cmdline) :
  help_requested cl = false ->
  positional_count cl <> 1 ->
  run (main w cl) =
  Process (getopt_messages cl ++ help_screen cl) EXIT_FAILURE.
Proof.
  intros H Hn. rewrite (main_no_help w cl H).
  unfold after_options. rewrite (arguments_check cl).
  apply Z.eqb_neq in Hn. rewrite Hn. reflexivity.
Qed.

Lemma diagnostic_last (fmt : string) (a : list fmt_arg) :
  ends_with_diagnostic [ev_fprintf stderr fmt a].
Proof. exists [], fmt, a. reflexivity. Qed.

Lemma diagnostic_cons (e : event) (t : list event) :
  ends_with_diagnostic t -> ends_with_diagnostic (e :: t).
Proof.
  intros (t' & fmt & a & ->). exists (e :: t'), fmt, a. reflexivity.
Qed.

Lemma diagnostic_app (u t : list event) :
  ends_with_diagnostic t -> ends_with_diagnostic (u ++ t).
Proof.
  intros (t' & fmt & a & ->). exists (u ++ t'), fmt, a.
  apply app_assoc.
Qed.

(** A run that stops at a check other than the one of the number of
    arguments ends with a diagnostic on the standard error stream. *)
Lemma run_diagnostic (w : world) (cl : cmdline) (s : step) :
  verdict_of w cl = Failed s ->
  s <> s_arguments ->
  ends_with_diagnostic (trace (run (main w cl))).
Proof.
  destruct (help_requested cl) eqn:H.
  - rewrite (proj2 (verdict_help w cl) H). discriminate.
  - revert s. main_cases w cl H; intros s Hv Hs.
    all: try discriminate.
    all: try (injection Hv as <-; contradiction).
    all: repeat first [ apply diagnostic_last
                      | apply diagnostic_cons
                      | apply diagnostic_app ].
Qed.

Lemma session_initdefaults (w : world) (cl : cmdline) (l : list usb_device)
  (d : usb_device) (m p s : string) :
  In (c_ftdi_eeprom_initdefaults m p s) (session w cl l d) ->
  m = new_manufacturer w cl d /\
  p = new_product w cl d /\
  s = new_serial w cl d.
Proof.
  unfold session. intros H.
  apply in_app_or in H. destruct H as [H|H].
  - simpl in H. intuition discriminate.
  - apply in_app_or in H. destruct H as [H|H].
    + apply In_probes in H. discriminate.
    + simpl in H.
      repeat (destruct H as [H|H]; [try discriminate|]); [|contradiction].
      injection H as <- <- <-. auto.
Qed.

Lemma In_session_tail (w : world) (cl : cmdline) (l : list usb_device)
  (d : usb_device) (c : lib_call) :
  In c [c_ftdi_init;
        c_ftdi_usb_open_dev d;
        c_libusb_get_device d;
        c_libusb_get_device_descriptor d;
        c_libusb_get_string_descriptor_ascii d
          (iManufacturer (descriptor_of w d)) orig_manufacturer;
        c_libusb_get_string_descriptor_ascii d
          (iProduct (descriptor_of w d)) orig_product;
        c_libusb_get_string_descriptor_ascii d
          (iSerialNumber (descriptor_of w d)) orig_serial;
        c_ftdi_eeprom_initdefaults
          (new_manufacturer w cl d) (new_product w cl d) (new_serial w cl d);
        c_ftdi_eeprom_build;
        c_ftdi_write_eeprom;
        c_ftdi_deinit] ->
  In c (session w cl l d).
Proof.
  intros H. unfold session.
  apply in_or_app. right. apply in_or_app. right. exact H.
Qed.

Lemma In_upto_intro (s : step) (l : list lib_call) (c : lib_call) :
  In c l -> (rank (step_of c) <= rank s)%nat -> In c (upto s l).
Proof.
  intros H1 H2. unfold upto. apply filter_In.
  split; [exact H1 | now apply Nat.leb_le].
Qed.

(** The library calls of a run never belong to a step after the one
    that fails. *)
Lemma calls_before_failure (w : world) (cl : cmdline) (s : step)
  (c : lib_call) :
  verdict_of w cl = Failed s ->
  In c (calls (trace (run (main w cl)))) ->
  (rank (step_of c) <= rank s)%nat.
Proof.
  intros Hv Hc. pose proof (run_calls w cl) as R. rewrite Hv in R.
  destruct s; unfold calls_by_verdict in R;
    try (rewrite R in Hc; simpl in Hc; contradiction);
    try (destruct R as (l & d & _ & _ & R); rewrite R in Hc;
         apply In_upto in Hc; exact (proj2 Hc)).
  - rewrite R in Hc. simpl in Hc. intuition (subst; simpl; lia).
  - destruct R as (l & _ & _ & R). rewrite R in Hc.
    apply in_app_or in Hc. destruct Hc as [Hc|Hc].
    + simpl in Hc. intuition (subst; simpl; lia).
    + rewrite (In_probes _ _ _ Hc). simpl. lia.
  - contradiction.
Qed.

(** Once a call of a step after the selection is in the trace, a device
    has been selected, the call is one of the session on that device,
    and every call of the session up to that step is in the trace. *)
Lemma calls_cover (w : world) (cl : cmdline) (c : lib_call) :
  In c (calls (trace (run (main w cl)))) ->
  (rank s_select < rank (step_of c))%nat ->
  exists l d,
    w_libusb_get_device_list w = list_devices l /\
    find (matches cl) l = Some d /\
    In c (session w cl l d) /\
    forall c', In c' (session w cl l d) ->
               (rank (step_of c') <= rank (step_of c))%nat ->
               In c' (calls (trace (run (main w cl)))).
Proof.
  intros Hc Hr. pose proof (run_calls w cl) as R.
  destruct (verdict_of w cl) as [|s|] eqn:Hv.
  - unfold calls_by_verdict in R. rewrite R in Hc. contradiction.
  - pose proof (calls_before_failure w cl s c Hv Hc) as Hs.
    destruct s; unfold calls_by_verdict in R;
      try (simpl in Hr, Hs; lia); try contradiction;
      destruct R as (l & d & Hl & Hd & R); exists l, d;
      (split; [exact Hl|]; split; [exact Hd|]);
      rewrite R in Hc; apply In_upto in Hc; destruct Hc as [Hc _];
      (split; [exact Hc|]); intros c' Hc' Hr'; rewrite R;
      (apply In_upto_intro; [exact Hc' | lia]).
  - unfold calls_by_verdict in R. destruct R as (l & d & Hl & Hd & R).
    exists l, d. rewrite R in *. auto.
Qed.

(** ** Facts about verdicts *)

Lemma verdict_on_succeeded (w : world) (cl : cmdline) (d : usb_device) :
  verdict_on w cl d = Succeeded ->
  w_ftdi_init w = 0 /\
  w_ftdi_usb_open_dev w d = 0 /\
  0 <= fst (w_libusb_get_device_descriptor w d) /\
  0 <= fst (read_string w d (iManufacturer (descriptor_of w d))) /\
  0 <= fst (read_string w d (iProduct (descriptor_of w d))) /\
  0 <= fst (read_string w d (iSerialNumber (descriptor_of w d))) /\
  0 <= w_ftdi_eeprom_initdefaults w
         (new_manufacturer w cl d) (new_product w cl d) (new_serial w cl d) /\
  0 <= w_ftdi_eeprom_build w /\
  0 <= w_ftdi_write_eeprom w.
Proof.
  unfold verdict_on.
  destruct (Z.eqb_spec (w_ftdi_init w) 0); [|discriminate].
  destruct (Z.eqb_spec (w_ftdi_usb_open_dev w d) 0); [|discriminate].
  cbn [negb].
  repeat match goal with
         | |- context [?x <? 0] =>
             destruct (Z.ltb_spec x 0); [discriminate|]
         end.
  intros _. repeat split; assumption.
Qed.

Lemma verdict_succeeded (w : world) (cl : cmdline) :
  verdict_of w cl = Succeeded ->
  help_requested cl = false /\
  positional_count cl = 1 /\
  p_ok (selection cl) = true /\
  exists l d,
    w_libusb_get_device_list w = list_devices l /\
    find (matches cl) l = Some d /\
    verdict_on w cl d = Succeeded.
Proof.
  unfold verdict_of.
  destruct (help_requested cl); [discriminate|].
  destruct (Z.eqb_spec (positional_count cl) 1); [|discriminate].
  destruct (p_ok (selection cl)); [|discriminate]. cbn [negb].
  destruct (w_libusb_get_device_list w) as [err|l]; [discriminate|].
  destruct (find (matches cl) l) as [d|] eqn:Hd; [|discriminate].
  intros H. split; [reflexivity|]. split; [assumption|].
  split; [reflexivity|]. exists l, d. auto.
Qed.

Lemma verdict_after_init (w : world) (cl : cmdline) (s : step) :
  verdict_of w cl = Failed s ->
  (rank s_ftdi_init < rank s)%nat ->
  w_ftdi_init w = 0.
Proof.
  unfold verdict_of.
  destruct (help_requested cl); [discriminate|].
  destruct (negb (positional_count cl =? 1));
    [intros [= <-]; simpl; lia|].
  destruct (negb (p_ok (selection cl))); [intros [= <-]; simpl; lia|].
  destruct (w_libusb_get_device_list w) as [err|l];
    [intros [= <-]; simpl; lia|].
  destruct (find (matches cl) l) as [d|]; [|intros [= <-]; simpl; lia].
  unfold verdict_on.
  destruct (Z.eqb_spec (w_ftdi_init w) 0); [auto|].
  cbn [negb]. intros [= <-]; simpl; lia.
Qed.

Lemma verdict_never_close (w : world) (cl : cmdline) :
  verdict_of w cl <> Failed s_close.
Proof.
  intros Hv. pose proof (run_calls w cl) as R. rewrite Hv in R. exact R.
Qed.

(** ** Some runs, evaluated *)

Lemma help_screen_lines (cl : cmdline) :
  help_screen cl =
  [ev_fprintf stdout "USAGE: %s [OPTIONS] bus:device\n" [arg_s (argv0 cl)];
   ev_fprintf stdout "Use lsusb to find the bus and device numbers.\n" [];
   ev_fprintf stdout "Options:\n" [];
   ev_fprintf stdout "  -m, --manufacturer=MFG Set the manufacturer to the specified value\n" [];
   ev_fprintf stdout "  -p, --product=PRODUCT  Set the product to the specified value\n" [];
   ev_fprintf stdout "  -s, --serial=SERIAL    Set the serial to the specified value\n" [];
   ev_fprintf stdout "  -v, --verbose          Verbose output\n" [];
   ev_fprintf stdout "  -h, --help             Print this help screen and exit\n" [];
   ev_fprintf stdout "Report bugs to <https://github.com/nemequ/ftdi-eeprom>\n" []].
Proof. reflexivity. Qed.

Lemma help_screen_usage (cl : cmdline) :
  help_screen cl = usage_text (argv0 cl).
Proof. reflexivity. Qed.

Example run_bad_identifier :
  run (main Sample.healthy Sample.bad_identifier) =
  Process [ev_fprintf stderr "Unable to parse `%s'\n" [arg_s "1:2:3"]]
          EXIT_FAILURE.
Proof. reflexivity. Qed.

Example run_locked :
  run (main Sample.locked Sample.plain) =
  Process
    [ev_call c_libusb_init;
     ev_call c_libusb_get_device_list;
     ev_call (c_libusb_get_bus_number Sample.hub);
     ev_call (c_libusb_get_device_address Sample.hub);
     ev_call (c_libusb_get_bus_number Sample.adapter);
     ev_call (c_libusb_get_device_address Sample.adapter);
     ev_call c_ftdi_init;
     ev_call (c_ftdi_usb_open_dev Sample.adapter);
     ev_fprintf stderr "ERROR: Unable to open device (%d)\n" [arg_d (-4)];
     ev_fprintf stderr "       Perhaps you don't have sufficient permissions (i.e., you aren't root)?\n" []]
    EXIT_FAILURE.
Proof. reflexivity. Qed.

Example run_new_serial :
  calls (trace (run (main Sample.healthy Sample.new_serial_only))) =
  [c_libusb_init;
   c_libusb_get_device_list;
   c_libusb_get_bus_number Sample.hub;
   c_libusb_get_device_address Sample.hub;
   c_libusb_get_bus_number Sample.adapter;
   c_libusb_get_device_address Sample.adapter;
   c_ftdi_init;
   c_ftdi_usb_open_dev Sample.adapter;
   c_libusb_get_device Sample.adapter;
   c_libusb_get_device_descriptor Sample.adapter;
   c_libusb_get_string_descriptor_ascii Sample.adapter 1 orig_manufacturer;
   c_libusb_get_string_descriptor_ascii Sample.adapter 2 orig_product;
   c_libusb_get_string_descriptor_ascii Sample.adapter 3 orig_serial;
   c_ftdi_eeprom_initdefaults "FTDI" "FT232R" "XYZ";
   c_ftdi_eeprom_build;
   c_ftdi_write_eeprom;
   c_ftdi_deinit] /\
  status (run (main Sample.healthy Sample.new_serial_only)) = EXIT_SUCCESS.
Proof. split; reflexivity. Qed.

(** ** The failures that [main] checks

    Every check but the one of the number of arguments ends the run with
    a diagnostic and [EXIT_FAILURE], and no call of a later step is
    made.  The answer of [libusb_init] is not among the checks: it has
    no effect on the run. *)

Lemma checked_failures_stop (w : world) (cl : cmdline) (s : step) :
  verdict_of w cl = Failed s ->
  s <> s_arguments ->
  ends_with_diagnostic (trace (run (main w cl))) /\
  status (run (main w cl)) = EXIT_FAILURE /\
  forall c, In c (calls (trace (run (main w cl)))) ->
            (rank (step_of c) <= rank s)%nat.
Proof.
  intros Hv Hs. split; [exact (run_diagnostic w cl s Hv Hs)|]. split.
  - rewrite run_status, Hv. reflexivity.
  - intros c. exact (calls_before_failure w cl s c Hv).
Qed.

Lemma libusb_init_unused (w : world) (cl : cmdline) (z : Z) :
  main (with_libusb_init z w) cl = main w cl.
Proof.
  reflexivity.
Qed.

(** * The claims *)

(** C1: when the run reaches [ftdi_eeprom_initdefaults], a device has
    been selected, its three string descriptors have been read with
    [libusb_get_string_descriptor_ascii], and each string that is passed
    is the one read from the device when the option ([-m], [-p], [-s])
    is omitted, and the argument of the option, unchanged, when it is
    given (the last one, if it is given several times). *)
Theorem C1_strings_of_initdefaults (w : world) (cl : cmdline)
  (m p s : string) :
  In (c_ftdi_eeprom_initdefaults m p s) (calls (trace (run (main w cl)))) ->
  exists d,
    selected w cl = Some d /\
    In (c_libusb_get_string_descriptor_ascii d
          (iManufacturer (descriptor_of w d)) orig_manufacturer)
       (calls (trace (run (main w cl)))) /\
    In (c_libusb_get_string_descriptor_ascii d
          (iProduct (descriptor_of w d)) orig_product)
       (calls (trace (run (main w cl)))) /\
    In (c_libusb_get_string_descriptor_ascii d
          (iSerialNumber (descriptor_of w d)) orig_serial)
       (calls (trace (run (main w cl)))) /\
    (omitted "m" (options_seen cl) -> m = device_manufacturer w d) /\
    (omitted "p" (options_seen cl) -> p = device_product w d) /\
    (omitted "s" (options_seen cl) -> s = device_serial w d) /\
    (forall x, given "m" x (options_seen cl) -> m = x) /\
    (forall x, given "p" x (options_seen cl) -> p = x) /\
    (forall x, given "s" x (options_seen cl) -> s = x).
Proof.
  intros Hc.
  destruct (calls_cover w cl _ Hc) as (l & d & Hl & Hd & Hs & Hcover).
  { simpl. lia. }
  apply session_initdefaults in Hs. destruct Hs as (-> & -> & ->).
  exists d. split.
  { unfold selected. rewrite Hl. exact Hd. }
  repeat split.
  1-3: apply Hcover; [apply In_session_tail; simpl; tauto | simpl; lia].
  1-3: intros H; unfold new_manufacturer, new_product, new_serial,
         options_of; cbn [manufacturer product serial];
       rewrite (last_optarg_omitted _ _ None H); reflexivity.
  all: intros x H; unfold new_manufacturer, new_product, new_serial,
         options_of; cbn [manufacturer product serial];
       rewrite (last_optarg_given _ x _ None H); reflexivity.
Qed.

Ltac pick := repeat first [ left; reflexivity | right ].

Lemma C1_witness :
  In (c_ftdi_eeprom_initdefaults "FTDI" "FT232R" "XYZ")
     (calls (trace (run (main Sample.healthy Sample.new_serial_only)))) /\
  omitted "m" (options_seen Sample.new_serial_only) /\
  omitted "p" (options_seen Sample.new_serial_only) /\
  given "s" "XYZ" (options_seen Sample.new_serial_only) /\
  exists d,
    selected Sample.healthy Sample.new_serial_only = Some d /\
    "FTDI" = device_manufacturer Sample.healthy d /\
    "FT232R" = device_product Sample.healthy d.
Proof.
  assert (H : In (c_ftdi_eeprom_initdefaults "FTDI" "FT232R" "XYZ")
                (calls (trace (run (main Sample.healthy
                                         Sample.new_serial_only))))).
  { vm_compute. pick. }
  assert (Hm : omitted "m" (options_seen Sample.new_serial_only)).
  { intros a [<-|[]]. vm_compute. discriminate. }
  assert (Hp : omitted "p" (options_seen Sample.new_serial_only)).
  { intros a [<-|[]]. vm_compute. discriminate. }
  assert (Hs : given "s" "XYZ" (options_seen Sample.new_serial_only)).
  { exists [], []. split; [reflexivity|]. intros a []. }
  split; [exact H|]. split; [exact Hm|]. split; [exact Hp|].
  split; [exact Hs|].
  destruct (C1_strings_of_initdefaults
              Sample.healthy Sample.new_serial_only "FTDI" "FT232R" "XYZ" H)
    as (d & Hd & _ & _ & _ & Em & Ep & _).
  exists d. split; [exact Hd|]. split; [exact (Em Hm) | exact (Ep Hp)].
Defined.

(** C2: ["1:2"] is accepted with bus 1 and device 2; ["1:2:3"] and
    ["abc"] are rejected. *)
Theorem C2_examples (bus device : Z) :
  parse_device_identifier bus device "1:2" = Parsed true 1 2 /\
  p_ok (parse_device_identifier bus device "1:2:3") = false /\
  p_ok (parse_device_identifier bus device "abc") = false.
Proof. repeat split. Qed.

(** C3: the exit status is [EXIT_SUCCESS] when every check of the
    sequence up to [ftdi_write_eeprom] passes, and [EXIT_FAILURE] when
    the run stops at a check that fails: the number of positional
    arguments, the identifier, the enumeration, the selection of the
    device, or one of the library calls on the device. *)
Theorem C3_exit_status (w : world) (cl : cmdline) :
  (verdict_of w cl = Succeeded ->
   status (run (main w cl)) = EXIT_SUCCESS) /\
  (forall s, verdict_of w cl = Failed s ->
             status (run (main w cl)) = EXIT_FAILURE).
Proof.
  rewrite run_status. split.
  - intros ->. reflexivity.
  - intros s ->. reflexivity.
Qed.

Lemma C3_witness :
  (verdict_of Sample.healthy Sample.plain = Succeeded /\
   status (run (main Sample.healthy Sample.plain)) = EXIT_SUCCESS) /\
  (verdict_of Sample.locked Sample.plain = Failed s_open /\
   status (run (main Sample.locked Sample.plain)) = EXIT_FAILURE) /\
  (verdict_of Sample.healthy Sample.bad_identifier = Failed s_identifier /\
   status (run (main Sample.healthy Sample.bad_identifier)) = EXIT_FAILURE).
Proof.
  split; [|split].
  - split; [reflexivity|].
    apply (proj1 (C3_exit_status Sample.healthy Sample.plain)).
    reflexivity.
  - split; [reflexivity|].
    apply (proj2 (C3_exit_status Sample.locked Sample.plain) s_open).
    reflexivity.
  - split; [reflexivity|].
    apply (proj2 (C3_exit_status Sample.healthy Sample.bad_identifier)
                 s_identifier).
    reflexivity.
Defined.

(** C4, where it fails: [libusb_init] answers LIBUSB_ERROR_OTHER; the
    run prints nothing about it and goes on with
    [libusb_get_device_list].  No run depends on what [libusb_init]
    answers. *)
Theorem C4_libusb_init_unchecked :
  w_libusb_init Sample.no_usb < 0 /\
  trace (run (main Sample.no_usb Sample.plain)) =
  [ev_call c_libusb_init;
   ev_call c_libusb_get_device_list;
   ev_fprintf stderr "ERROR: Unable to list USB devices [%zd]: %s\n"
     [arg_d (-99); arg_s "Other error"]] /\
  (forall w cl z, run (main (with_libusb_init z w) cl) = run (main w cl)).
Proof.
  split; [reflexivity|]. split; [reflexivity|].
  intros w cl z. rewrite libusb_init_unused. reflexivity.
Qed.

(** C5: a run that succeeds has one positional argument that parses,
    and its library calls are, in this order: the enumeration, the
    search for the first device of the list at bus:device, [ftdi_init]
    and [ftdi_usb_open_dev] on that device, the reading of the device
    descriptor and of the three strings, [ftdi_eeprom_initdefaults],
    [ftdi_eeprom_build], [ftdi_write_eeprom] and [ftdi_deinit]; each of
    the checks has passed.  In a run that stops at a check, no call of
    a later step is made. *)
Theorem C5_order_of_steps (w : world) (cl : cmdline) :
  (verdict_of w cl = Succeeded ->
   positional_count cl = 1 /\
   p_ok (selection cl) = true /\
   exists l d,
     w_libusb_get_device_list w = list_devices l /\
     (exists before after,
        l = before ++ d :: after /\
        matches cl d = true /\
        forall x, In x before -> matches cl x = false) /\
     calls (trace (run (main w cl))) = session w cl l d /\
     w_ftdi_init w = 0 /\
     w_ftdi_usb_open_dev w d = 0 /\
     0 <= fst (w_libusb_get_device_descriptor w d) /\
     0 <= fst (read_string w d (iManufacturer (descriptor_of w d))) /\
     0 <= fst (read_string w d (iProduct (descriptor_of w d))) /\
     0 <= fst (read_string w d (iSerialNumber (descriptor_of w d))) /\
     0 <= w_ftdi_eeprom_initdefaults w
            (new_manufacturer w cl d) (new_product w cl d)
            (new_serial w cl d) /\
     0 <= w_ftdi_eeprom_build w /\
     0 <= w_ftdi_write_eeprom w) /\
  (forall s c,
     verdict_of w cl = Failed s ->
     In c (calls (trace (run (main w cl)))) ->
     (rank (step_of c) <= rank s)%nat).
Proof.
  split.
  - intros Hv.
    destruct (verdict_succeeded w cl Hv)
      as (_ & Hn & Hp & l & d & Hl & Hd & Hon).
    split; [exact Hn|]. split; [exact Hp|].
    exists l, d. split; [exact Hl|].
    split; [exact (find_first (matches cl) l d Hd)|].
    split; [|exact (verdict_on_succeeded w cl d Hon)].
    pose proof (run_calls w cl) as R. rewrite Hv in R.
    destruct R as (l' & d' & Hl' & Hd' & R).
    rewrite Hl in Hl'. injection Hl' as <-.
    rewrite Hd in Hd'. injection Hd' as <-.
    exact R.
  - intros s c. apply calls_before_failure.
Qed.

Lemma C5_witness :
  (verdict_of Sample.healthy Sample.plain = Succeeded /\
   calls (trace (run (main Sample.healthy Sample.plain))) =
   session Sample.healthy Sample.plain
     [Sample.hub; Sample.adapter] Sample.adapter) /\
  (verdict_of Sample.locked Sample.plain = Failed s_open /\
   In (c_ftdi_usb_open_dev Sample.adapter)
      (calls (trace (run (main Sample.locked Sample.plain)))) /\
   (rank (step_of (c_ftdi_usb_open_dev Sample.adapter)) <= rank s_open)%nat).
Proof.
  split.
  - split; [reflexivity|].
    destruct (proj1 (C5_order_of_steps Sample.healthy Sample.plain)
                    eq_refl)
      as (_ & _ & l & d & Hl & (before & after & Hd & Hm & Hb) & R & _).
    injection Hl as <-.
    destruct before as [|x before].
    { injection Hd as <-. discriminate Hm. }
    injection Hd as <- Hd. destruct before as [|y before].
    { injection Hd as <-. exact R. }
    injection Hd as _ Hd. destruct before; discriminate Hd.
  - split; [reflexivity|].
    assert (H : In (c_ftdi_usb_open_dev Sample.adapter)
                  (calls (trace (run (main Sample.locked Sample.plain))))).
    { vm_compute. pick. }
    split; [exact H|].
    exact (proj2 (C5_order_of_steps Sample.locked Sample.plain)
                 s_open _ eq_refl H).
Defined.

(** C6, as stated: it fails on [ftdi-eeprom -h], which has no positional
    argument and exits with [EXIT_SUCCESS]. *)
Lemma C6_counterexample :
  positional_count Sample.help_only <> 1 /\
  status (run (main Sample.healthy Sample.help_only)) <> EXIT_FAILURE.
Proof. split; vm_compute; discriminate. Qed.

(** C6, amended: an invocation without [-h] or [--help] whose number of
    positional arguments is not one prints the help text to the
    standard output, makes no library call and exits with
    [EXIT_FAILURE]; before the help text the run has nothing but what
    [getopt_long] may have written about the options. *)
Theorem C6_wrong_number_of_arguments (w : world) (cl : cmdline) :
  help_requested cl = false ->
  positional_count cl <> 1 ->
  trace (run (main w cl)) = getopt_messages cl ++ usage_text (argv0 cl) /\
  printed stdout (trace (run (main w cl))) = usage_text (argv0 cl) /\
  calls (trace (run (main w cl))) = [] /\
  status (run (main w cl)) = EXIT_FAILURE.
Proof.
  intros H Hn. rewrite (run_arguments w cl H Hn), help_screen_usage.
  cbn [trace status]. split; [reflexivity|]. split; [|split].
  - unfold printed. rewrite filter_app, stdout_messages. reflexivity.
  - rewrite calls_app, calls_messages. reflexivity.
  - reflexivity.
Qed.

Lemma C6_witness :
  help_requested Sample.no_argument = false /\
  positional_count Sample.no_argument <> 1 /\
  trace (run (main Sample.healthy Sample.no_argument)) =
    getopt_messages Sample.no_argument ++ usage_text "ftdi-eeprom" /\
  printed stdout (trace (run (main Sample.healthy Sample.no_argument))) =
    usage_text "ftdi-eeprom" /\
  calls (trace (run (main Sample.healthy Sample.no_argument))) = [] /\
  status (run (main Sample.healthy Sample.no_argument)) = EXIT_FAILURE.
Proof.
  assert (H : help_requested Sample.no_argument = false) by reflexivity.
  assert (Hn : positional_count Sample.no_argument <> 1)
    by (vm_compute; discriminate).
  split; [exact H|]. split; [exact Hn|].
  exact (C6_wrong_number_of_arguments
           Sample.healthy Sample.no_argument H Hn).
Defined.

(** C7: a run that stops at a check after [ftdi_init] has succeeded
    (the opening of the device, the reading of a descriptor,
    [ftdi_eeprom_initdefaults], [ftdi_eeprom_build] or
    [ftdi_write_eeprom]) has called [ftdi_init] and does not call
    [ftdi_deinit]; [ftdi_deinit] is called in the runs that succeed and
    in no other. *)
Theorem C7_deinit_only_on_success (w : world) (cl : cmdline) :
  (forall s,
     verdict_of w cl = Failed s ->
     (rank s_ftdi_init < rank s)%nat ->
     In c_ftdi_init (calls (trace (run (main w cl)))) /\
     w_ftdi_init w = 0 /\
     ~ In c_ftdi_deinit (calls (trace (run (main w cl)))) /\
     status (run (main w cl)) = EXIT_FAILURE) /\
  (In c_ftdi_deinit (calls (trace (run (main w cl)))) <->
   verdict_of w cl = Succeeded).
Proof.
  assert (Hno : forall s, verdict_of w cl = Failed s ->
                  ~ In c_ftdi_deinit (calls (trace (run (main w cl))))).
  { intros s Hv Hc.
    pose proof (calls_before_failure w cl s _ Hv Hc) as Hr.
    destruct s; simpl in Hr; try lia.
    exact (verdict_never_close w cl Hv). }
  split.
  - intros s Hv Hs.
    split; [|split; [exact (verdict_after_init w cl s Hv Hs)|split]].
    + pose proof (run_calls w cl) as R. rewrite Hv in R.
      destruct s; simpl in Hs; try lia; unfold calls_by_verdict in R;
        try contradiction;
        destruct R as (l & d & _ & _ & ->);
        (apply In_upto_intro;
         [apply In_session_tail; simpl; tauto | simpl; lia]).
    + exact (Hno s Hv).
    + rewrite run_status, Hv. reflexivity.
  - split.
    + intros Hc. destruct (verdict_of w cl) as [|s|] eqn:Hv.
      * pose proof (run_calls w cl) as R. rewrite Hv in R.
        unfold calls_by_verdict in R. rewrite R in Hc. contradiction.
      * destruct (Hno s eq_refl Hc).
      * reflexivity.
    + intros Hv. pose proof (run_calls w cl) as R. rewrite Hv in R.
      destruct R as (l & d & _ & _ & ->).
      apply In_session_tail. simpl. tauto.
Qed.

Lemma C7_witness :
  (verdict_of Sample.locked Sample.plain = Failed s_open /\
   (rank s_ftdi_init < rank s_open)%nat /\
   In c_ftdi_init (calls (trace (run (main Sample.locked Sample.plain)))) /\
   w_ftdi_init Sample.locked = 0 /\
   ~ In c_ftdi_deinit
       (calls (trace (run (main Sample.locked Sample.plain)))) /\
   status (run (main Sample.locked Sample.plain)) = EXIT_FAILURE) /\
  (verdict_of Sample.healthy Sample.plain = Succeeded /\
   In c_ftdi_deinit (calls (trace (run (main Sample.healthy Sample.plain))))).
Proof.
  split.
  - split; [reflexivity|]. split; [simpl; lia|].
    apply (proj1 (C7_deinit_only_on_success Sample.locked Sample.plain)
                 s_open); [reflexivity | simpl; lia].
  - split; [reflexivity|].
    apply (proj2 (C7_deinit_only_on_success Sample.healthy Sample.plain)).
    reflexivity.
Defined.

(** C8: an identifier that starts with a colon followed by something
    that [strtol] converts up to its end is accepted with bus 0; the
    numbers of base 0 (hexadecimal after [0x], octal after [0], decimal
    otherwise, with an optional sign) are accepted on both sides of the
    colon and converted as [strtol] converts them. *)
Theorem C8_colon_first_and_base_0 (bus device : Z) :
  (forall s,
     snd (strtol s 0) = "" ->
     parse_device_identifier bus device (String ":" s) =
     Parsed true 0 (CInt.to_int (fst (strtol s 0)))) /\
  (forall a b,
     is_numeral a = true ->
     is_numeral b = true ->
     parse_device_identifier bus device (a ++ String ":" b) =
     Parsed true (CInt.to_int (fst (strtol a 0)))
                 (CInt.to_int (fst (strtol b 0)))) /\
  parse_device_identifier bus device ":5" = Parsed true 0 5 /\
  parse_device_identifier bus device "0x1:2" = Parsed true 1 2 /\
  parse_device_identifier bus device "010:2" = Parsed true 8 2 /\
  parse_device_identifier bus device "-1:-0x10" = Parsed true (-1) (-16).
Proof.
  split; [|split; [|repeat split]].
  - intros s Hs. unfold parse_device_identifier.
    rewrite strtol_at_colon.
    destruct (strtol s 0) as [tmp endptr]. simpl in Hs. subst endptr.
    reflexivity.
  - intros a b Ha Hb. unfold parse_device_identifier.
    destruct (strtol_numeral a b Ha) as (va & Ea & ->).
    destruct (strtol_numeral b "" Hb) as (vb & Eb & _).
    rewrite Ea, Eb. reflexivity.
Qed.

Lemma C8_witness :
  (snd (strtol "5" 0) = "" /\
   parse_device_identifier (-1) (-1) ":5" =
   Parsed true 0 (CInt.to_int (fst (strtol "5" 0)))) /\
  (is_numeral "0x1F" = true /\
   is_numeral "-017" = true /\
   parse_device_identifier (-1) (-1) "0x1F:-017" =
   Parsed true (CInt.to_int (fst (strtol "0x1F" 0)))
               (CInt.to_int (fst (strtol "-017" 0)))).
Proof.
  split.
  - split; [reflexivity|].
    exact (proj1 (C8_colon_first_and_base_0 (-1) (-1)) "5" eq_refl).
  - split; [reflexivity|]. split; [reflexivity|].
    exact (proj1 (proj2 (C8_colon_first_and_base_0 (-1) (-1)))
                 "0x1F" "-017" eq_refl eq_refl).
Defined.



(** C10: when [-h] or [--help] is among the options, the run prints the
    help text to the standard output and ends there with
    [EXIT_SUCCESS]; no library call is made, whatever the positional
    arguments are.  Before the help text the run has nothing but what
    [getopt_long] may have written about the options before [-h]. *)
Theorem C10_help (w : world) (cl : cmdline) :
  help_requested cl = true ->
  trace (run (main w cl)) = getopt_messages cl ++ usage_text (argv0 cl) /\
  printed stdout (trace (run (main w cl))) = usage_text (argv0 cl) /\
  calls (trace (run (main w cl))) = [] /\
  status (run (main w cl)) = EXIT_SUCCESS.
Proof.
  intros H. rewrite (run_help w cl H), help_screen_usage.
  cbn [trace status]. split; [reflexivity|]. split; [|split].
  - unfold printed. rewrite filter_app, stdout_messages. reflexivity.
  - rewrite calls_app, calls_messages. reflexivity.
  - reflexivity.
Qed.

Lemma C10_witness :
  help_requested Sample.help_only = true /\
  trace (run (main Sample.healthy Sample.help_only)) =
    getopt_messages Sample.help_only ++ usage_text "ftdi-eeprom" /\
  printed stdout (trace (run (main Sample.healthy Sample.help_only))) =
    usage_text "ftdi-eeprom" /\
  calls (trace (run (main Sample.healthy Sample.help_only))) = [] /\
  status (run (main Sample.healthy Sample.help_only)) = EXIT_SUCCESS.
Proof.
  split; [reflexivity|].
  exact (C10_help Sample.healthy Sample.help_only eq_refl).
Defined.

(** * Further properties *)

(** ** [parse_device_identifier]: where a number ends *)

Lemma is_digit_below (b : Z) (c : ascii) :
  b <= 16 -> is_digit 16 c = false -> is_digit b c = false.
Proof.
  unfold is_digit. intros Hb. destruct (digit_value c) as [d|]; [|auto].
  intros H. apply Z.ltb_ge in H. apply Z.ltb_ge. lia.
Qed.

Lemma ends_number_stops (b : Z) (k : string) :
  b <= 16 -> ends_number k = true -> starts_with_digit b k = false.
Proof.
  intros Hb. destruct k as [|c t]; [reflexivity|]. simpl.
  intros H. apply andb_true_iff in H. destruct H as [H _].
  apply negb_true_iff in H. exact (is_digit_below b c Hb H).
Qed.

Lemma scan_from_stop (nptr nptr' : string) (neg : bool) (b : Z)
  (s k : string) :
  nonempty s = true ->
  all_digits b s = true ->
  starts_with_digit b k = false ->
  exists v,
    scan_from nptr neg b s = (v, "") /\
    scan_from nptr' neg b (s ++ k) = (v, k).
Proof.
  intros Hn Ha Hk. unfold scan_from.
  rewrite (scan_digits_then b s k Ha Hk 0).
  pose proof (scan_all_digits b s Ha 0) as Hs.
  destruct s as [|c r]; [discriminate|].
  simpl in Ha. apply andb_true_iff in Ha. destruct Ha as [Hc _].
  cbn [append starts_with_digit]. rewrite Hc.
  destruct (scan_digits b 0 (String c r)) as [v rest].
  simpl in Hs. subst rest. eexists. split; reflexivity.
Qed.

Lemma take_base_stop (s k : string) :
  is_unsigned_numeral s = true ->
  ends_number k = true ->
  exists b s2,
    b <= 16 /\
    nonempty s2 = true /\
    all_digits b s2 = true /\
    take_base 0 s = (b, s2) /\
    take_base 0 (s ++ k) = (b, (s2 ++ k)%string).
Proof.
  unfold is_unsigned_numeral, take_base.
  destruct s as [|c r]; [discriminate|]. cbn [append].
  destruct (Ascii.eqb_spec c "0") as [->|Hc].
  - destruct r as [|x h].
    + intros _ Hk. exists 8, "0". split; [lia|]. repeat split.
      destruct k as [|c t]; [reflexivity|]. cbn [append].
      simpl in Hk. apply andb_true_iff in Hk. destruct Hk as [_ Hx].
      apply negb_true_iff in Hx. rewrite Hx. destruct t; reflexivity.
    + cbn [append]. destruct (is_x x) eqn:Hx.
      * intros H _. apply andb_true_iff in H. destruct H as [Hn Ha].
        destruct h as [|h0 h']; [discriminate|]. cbn [append].
        assert (Hh : is_digit 16 h0 = true).
        { simpl in Ha. apply andb_true_iff in Ha. tauto. }
        rewrite Hh. exists 16, (String h0 h'). split; [lia|].
        repeat split. exact Ha.
      * intros Ha _. exists 8, (String "0" (String x h)).
        split; [lia|]. split; [reflexivity|]. split.
        { change (is_digit 8 "0" && all_digits 8 (String x h) = true).
          rewrite Ha. reflexivity. }
        split; [destruct h; reflexivity|].
        cbn [append]. destruct (h ++ k)%string; reflexivity.
  - intros H _. exists 10, (String c r). split; [lia|].
    repeat split. exact H.
Qed.

Lemma convert_stop (nptr nptr' : string) (neg : bool) (s k : string) :
  is_unsigned_numeral s = true ->
  ends_number k = true ->
  exists v,
    convert nptr 0 neg s = (v, "") /\
    convert nptr' 0 neg (s ++ k) = (v, k).
Proof.
  intros H Hk. unfold convert.
  destruct (take_base_stop s k H Hk) as (b & s2 & Hb & Hn & Ha & -> & ->).
  apply scan_from_stop; [assumption | assumption |].
  exact (ends_number_stops b k Hb Hk).
Qed.

Lemma skip_space_all (ws s : string) :
  all_space ws = true -> skip_space (ws ++ s) = skip_space s.
Proof.
  induction ws as [|c r IH]; simpl; [reflexivity|].
  intros H. apply andb_true_iff in H. destruct H as [Hc Hr].
  rewrite Hc. exact (IH Hr).
Qed.

(** A number of base 0, after white space and before a text that ends
    it, is converted to the same value as alone, and the conversion
    stops at that text. *)
Lemma strtol_stop (ws s k : string) :
  all_space ws = true ->
  is_numeral s = true ->
  ends_number k = true ->
  exists v,
    strtol s 0 = (v, "") /\
    strtol (ws ++ s ++ k) 0 = (v, k).
Proof.
  intros Hw Hs Hk. unfold strtol. rewrite (skip_space_all ws _ Hw).
  unfold is_numeral in Hs. destruct s as [|c r]; [discriminate|].
  cbn [append].
  destruct (Ascii.eqb_spec c "-") as [->|Hm].
  - exact (convert_stop _ _ true r k Hs Hk).
  - destruct (Ascii.eqb_spec c "+") as [->|Hp].
    + exact (convert_stop _ _ false r k Hs Hk).
    + cbn [orb] in Hs.
      assert (Hd : is_digit 10 c = true).
      { unfold is_unsigned_numeral in Hs.
        destruct (Ascii.eqb_spec c "0") as [->|]; [reflexivity|].
        apply andb_true_iff in Hs. tauto. }
      destruct (digit_not_space c Hd) as (Hsp & Hm' & Hp').
      cbn [skip_space]. rewrite Hsp. cbn [take_sign]. rewrite Hm', Hp'.
      exact (convert_stop _ _ false (String c r) k Hs Hk).
Qed.

(** What [strtol] leaves has a colon only if the string has one. *)
Lemma has_colon_scan (b : Z) (s : string) :
  forall acc, has_colon (snd (scan_digits b acc s)) = true ->
              has_colon s = true.
Proof.
  induction s as [|c r IH]; intros acc; simpl; [auto|].
  destruct (digit_value c) as [d|]; [|auto].
  destruct (d <? b); [|auto].
  intros H. rewrite (IH _ H). apply orb_true_r.
Qed.

Lemma has_colon_skip (s : string) :
  has_colon (skip_space s) = true -> has_colon s = true.
Proof.
  induction s as [|c r IH]; simpl; [auto|].
  destruct (isspace c); [|auto].
  intros H. rewrite (IH H). apply orb_true_r.
Qed.

Lemma has_colon_sign (s : string) :
  has_colon (snd (take_sign s)) = true -> has_colon s = true.
Proof.
  destruct s as [|c r]; simpl; [auto|].
  destruct (c =? "-")%char; simpl;
    [intros ->; apply orb_true_r|].
  destruct (c =? "+")%char; simpl; [intros ->; apply orb_true_r|auto].
Qed.

Lemma has_colon_base (s : string) :
  has_colon (snd (take_base 0 s)) = true -> has_colon s = true.
Proof.
  unfold take_base. destruct s as [|c r]; [auto|].
  destruct (c =? "0")%char; [|auto].
  destruct r as [|x [|h r']]; [auto|auto|].
  destruct (is_x x && is_digit 16 h); [|auto].
  cbn [Z.eqb orb snd]. intros H.
  change (has_colon (String c (String x (String h r'))))
    with ((c =? ":")%char || ((x =? ":")%char || has_colon (String h r'))).
  rewrite H. rewrite !orb_true_r. reflexivity.
Qed.

Lemma has_colon_strtol (s : string) :
  has_colon (snd (strtol s 0)) = true -> has_colon s = true.
Proof.
  unfold strtol, convert, scan_from.
  destruct (take_sign (skip_space s)) as [neg s1] eqn:E1.
  destruct (take_base 0 s1) as [b s2] eqn:E2.
  destruct (starts_with_digit b s2); [|auto].
  destruct (scan_digits b 0 s2) as [v rest] eqn:E3. cbn [snd].
  intros H. apply has_colon_skip. apply has_colon_sign. rewrite E1.
  cbn [snd]. apply has_colon_base. rewrite E2. cbn [snd].
  apply (has_colon_scan b s2 0). rewrite E3. exact H.
Qed.

(** X1: a number of base 0 followed by a colon and nothing else is
    accepted, with device 0; so is a colon alone, with bus 0 and
    device 0. *)
Theorem X1_empty_device_is_zero (bus device : Z) (number : string) :
  is_numeral number = true ->
  parse_device_identifier bus device (number ++ ":") =
    Parsed true (CInt.to_int (fst (strtol number 0))) 0 /\
  parse_device_identifier bus device ":" = Parsed true 0 0.
Proof.
  intros H. split; [|reflexivity].
  unfold parse_device_identifier.
  destruct (strtol_numeral number "" H) as (v & E1 & ->).
  rewrite E1. reflexivity.
Qed.

Lemma X1_witness :
  is_numeral "3" = true /\
  parse_device_identifier (-1) (-1) "3:" = Parsed true 3 0 /\
  parse_device_identifier (-1) (-1) ":" = Parsed true 0 0.
Proof.
  split; [reflexivity|].
  exact (X1_empty_device_is_zero (-1) (-1) "3" eq_refl).
Defined.

(** X2: an identifier without a colon, the empty one included, is
    rejected and neither cell is written. *)
Theorem X2_no_colon_no_effect (bus device : Z) (identifier : string) :
  has_colon identifier = false ->
  parse_device_identifier bus device identifier = Parsed false bus device.
Proof.
  intros H. unfold parse_device_identifier.
  pose proof (has_colon_strtol identifier) as Hs.
  destruct (strtol identifier 0) as [tmp endptr]. cbn [snd] in Hs.
  destruct endptr as [|c after_colon]; [reflexivity|].
  destruct (Ascii.eqb_spec c ":") as [->|Hc].
  - rewrite Hs in H by reflexivity. discriminate.
  - destruct c as [[] [] [] [] [] [] [] []]; try reflexivity.
    contradiction Hc. reflexivity.
Qed.

Lemma X2_witness :
  has_colon "12" = false /\
  parse_device_identifier 7 8 "12" = Parsed false 7 8.
Proof.
  split; [reflexivity|].
  exact (X2_no_colon_no_effect 7 8 "12" eq_refl).
Defined.

(** X3: white space before the bus number and before the device number
    is skipped: the identifier is accepted with the values of the two
    numbers. *)
Theorem X3_leading_space_is_skipped (bus device : Z)
  (w1 a w2 b : string) :
  all_space w1 = true ->
  all_space w2 = true ->
  is_numeral a = true ->
  is_numeral b = true ->
  parse_device_identifier bus device
    (w1 ++ a ++ String ":" (w2 ++ b)) =
  Parsed true (CInt.to_int (fst (strtol a 0)))
              (CInt.to_int (fst (strtol b 0))).
Proof.
  intros H1 H2 Ha Hb. unfold parse_device_identifier.
  destruct (strtol_stop w1 a (String ":" (w2 ++ b)) H1 Ha eq_refl)
    as (va & Ea & ->).
  destruct (strtol_stop w2 b "" H2 Hb eq_refl) as (vb & Eb & E).
  assert (Eapp : forall s : string, (s ++ "")%string = s).
  { induction s as [|c r IH]; simpl; [reflexivity|]. now rewrite IH. }
  rewrite Eapp in E. rewrite E, Ea, Eb. reflexivity.
Qed.

Lemma X3_witness :
  all_space " " = true /\
  all_space "  " = true /\
  is_numeral "1" = true /\
  is_numeral "0x2" = true /\
  parse_device_identifier (-1) (-1) " 1:  0x2" = Parsed true 1 2.
Proof.
  repeat (split; [reflexivity|]).
  exact (X3_leading_space_is_skipped (-1) (-1) " " "1" "  " "0x2"
           eq_refl eq_refl eq_refl eq_refl).
Defined.

(** X4: nothing may follow the device number, and nothing may stand
    between the bus number and the colon.  With a text after the device
    number the identifier is rejected once the bus cell has been
    written; with a text other than a colon after the bus number it is
    rejected and neither cell is written. *)
Theorem X4_trailing_text_is_rejected (bus device : Z) (a b k : string) :
  is_numeral a = true ->
  ends_number k = true ->
  (is_numeral b = true ->
   nonempty k = true ->
   parse_device_identifier bus device (a ++ String ":" (b ++ k)) =
   Parsed false (CInt.to_int (fst (strtol a 0))) device) /\
  (starts_with_colon k = false ->
   parse_device_identifier bus device (a ++ k) =
   Parsed false bus device).
Proof.
  intros Ha Hk. unfold parse_device_identifier. split.
  - intros Hb Hn.
    destruct (strtol_stop "" a (String ":" (b ++ k)) eq_refl Ha eq_refl)
      as (va & Ea & E).
    cbn [append] in E. rewrite E, Ea.
    destruct (strtol_stop "" b k eq_refl Hb Hk) as (vb & _ & E').
    cbn [append] in E'. rewrite E'.
    destruct k; [discriminate|reflexivity].
  - intros Hc.
    destruct (strtol_stop "" a k eq_refl Ha Hk) as (va & _ & E).
    cbn [append] in E. rewrite E.
    destruct k as [|c t]; [reflexivity|].
    simpl in Hc.
    destruct c as [[] [] [] [] [] [] [] []]; try reflexivity.
    discriminate Hc.
Qed.

Lemma X4_witness :
  is_numeral "1" = true /\
  ends_number " " = true /\
  (is_numeral "2" = true /\
   nonempty " " = true /\
   parse_device_identifier (-1) (-1) "1:2 " = Parsed false 1 (-1)) /\
  (starts_with_colon " " = false /\
   parse_device_identifier (-1) (-1) "1 " = Parsed false (-1) (-1)).
Proof.
  split; [reflexivity|]. split; [reflexivity|].
  split.
  - split; [reflexivity|]. split; [reflexivity|].
    exact (proj1 (X4_trailing_text_is_rejected (-1) (-1) "1" "2" " "
                    eq_refl eq_refl) eq_refl eq_refl).
  - split; [reflexivity|].
    exact (proj2 (X4_trailing_text_is_rejected (-1) (-1) "1" "2" " "
                    eq_refl eq_refl) eq_refl).
Defined.

(** ** [parse_device_identifier]: numbers that do not fit an [int] *)

Lemma to_int_period (z k : Z) :
  CInt.to_int (z + k * 2 ^ 32) = CInt.to_int z.
Proof.
  unfold CInt.to_int.
  replace (z + k * 2 ^ 32 + 2 ^ 31) with (z + 2 ^ 31 + k * 2 ^ 32) by lia.
  rewrite Z_mod_plus_full. reflexivity.
Qed.

Lemma scan_digits_value (base : Z) (s : string) :
  all_digits base s = true ->
  forall acc,
    fst (scan_digits base acc s) =
    acc * base ^ Z.of_nat (String.length s) + digits_value base s.
Proof.
  induction s as [|c r IH]; intros H acc.
  - cbn [scan_digits digits_value String.length fst Z.of_nat].
    rewrite Z.pow_0_r. lia.
  - cbn [all_digits] in H. apply andb_true_iff in H. destruct H as [Hc Hr].
    unfold is_digit in Hc.
    cbn [scan_digits digits_value String.length].
    destruct (digit_value c) as [d|]; [|discriminate].
    rewrite Hc, (IH Hr), Nat2Z.inj_succ, Z.pow_succ_r by lia. ring.
Qed.

Lemma take_base_value (s : string) :
  is_unsigned_numeral s = true ->
  exists b s2,
    nonempty s2 = true /\
    all_digits b s2 = true /\
    take_base 0 s = (b, s2) /\
    unsigned_value s = digits_value b s2.
Proof.
  unfold is_unsigned_numeral, take_base, unsigned_value.
  destruct s as [|c r]; [discriminate|].
  destruct (Ascii.eqb_spec c "0") as [->|Hc].
  - destruct r as [|x h].
    + intros _. exists 8, "0". repeat split.
    + destruct (is_x x) eqn:Hx.
      * intros H. apply andb_true_iff in H. destruct H as [Hn Ha].
        destruct h as [|h0 h']; [discriminate|].
        assert (Hh : is_digit 16 h0 = true).
        { simpl in Ha. apply andb_true_iff in Ha. tauto. }
        rewrite Hh. exists 16, (String h0 h'). repeat split. exact Ha.
      * intros Ha. exists 8, (String "0" (String x h)).
        split; [reflexivity|]. split.
        { change (is_digit 8 "0" && all_digits 8 (String x h) = true).
          rewrite Ha. reflexivity. }
        split; [destruct h; reflexivity|].
        change (digits_value 8 (String "0" (String x h)))
          with (0 * 8 ^ Z.of_nat (String.length (String x h))
                + digits_value 8 (String x h)).
        lia.
  - intros H. exists 10, (String c r). repeat split; [exact H|].
    destruct r; reflexivity.
Qed.

Lemma convert_value (nptr : string) (neg : bool) (s : string) :
  is_unsigned_numeral s = true ->
  fst (convert nptr 0 neg s) =
  CInt.clamp_long (if neg then - unsigned_value s else unsigned_value s).
Proof.
  intros H. unfold convert.
  destruct (take_base_value s H) as (b & s2 & Hn & Ha & -> & ->).
  unfold scan_from. pose proof (scan_digits_value b s2 Ha 0) as Hv.
  destruct s2 as [|c r]; [discriminate|].
  assert (Hc : starts_with_digit b (String c r) = true).
  { cbn [all_digits] in Ha. apply andb_true_iff in Ha. tauto. }
  rewrite Hc. destruct (scan_digits b 0 (String c r)) as [v rest].
  cbn [fst] in *. subst v. rewrite Z.mul_0_l, Z.add_0_l. reflexivity.
Qed.

(** What [strtol] returns for a number in the syntax of base 0 is the
    number that is written, brought into the range of [long]. *)
Lemma strtol_value (s : string) :
  is_numeral s = true ->
  fst (strtol s 0) = CInt.clamp_long (written_value s).
Proof.
  unfold is_numeral, strtol, written_value.
  destruct s as [|c r]; [discriminate|].
  destruct (Ascii.eqb_spec c "-") as [->|Hm].
  - intros H. apply (convert_value _ true r H).
  - destruct (Ascii.eqb_spec c "+") as [->|Hp].
    + intros H. apply (convert_value _ false r H).
    + cbn [orb]. intros H.
      assert (Hd : is_digit 10 c = true).
      { unfold is_unsigned_numeral in H.
        destruct (Ascii.eqb_spec c "0") as [->|]; [reflexivity|].
        apply andb_true_iff in H. tauto. }
      destruct (digit_not_space c Hd) as (Hs & Hm' & Hp').
      cbn [skip_space]. rewrite Hs. cbn [take_sign]. rewrite Hm', Hp'.
      apply (convert_value _ false (String c r) H).
Qed.

Lemma parse_numerals (bus device : Z) (a b : string) :
  is_numeral a = true ->
  is_numeral b = true ->
  parse_device_identifier bus device (a ++ String ":" b) =
  Parsed true (CInt.to_int (CInt.clamp_long (written_value a)))
              (CInt.to_int (CInt.clamp_long (written_value b))).
Proof.
  intros Ha Hb. unfold parse_device_identifier.
  pose proof (strtol_value a Ha) as Va. pose proof (strtol_value b Hb) as Vb.
  destruct (strtol_numeral a b Ha) as (va & E1 & ->).
  destruct (strtol_numeral b "" Hb) as (vb & E2 & _).
  rewrite E1 in Va. rewrite E2 in Vb. cbn [fst] in Va, Vb.
  rewrite E2, Va, Vb. reflexivity.
Qed.

Lemma clamp_long_above (z : Z) :
  CInt.LONG_MAX < z -> CInt.to_int (CInt.clamp_long z) = -1.
Proof.
  intros H. unfold CInt.clamp_long.
  destruct (Z.gtb_spec z CInt.LONG_MAX); [reflexivity|lia].
Qed.

Lemma clamp_long_below (z : Z) :
  z < CInt.LONG_MIN -> CInt.to_int (CInt.clamp_long z) = 0.
Proof.
  intros H. unfold CInt.clamp_long.
  destruct (Z.gtb_spec z CInt.LONG_MAX) as [G|_];
    [unfold CInt.LONG_MAX, CInt.LONG_MIN in *; lia|].
  destruct (Z.ltb_spec z CInt.LONG_MIN); [reflexivity|lia].
Qed.

(** X9: a number that does not fit an [int] is not rejected.  For an
    identifier made of two numbers in the syntax of base 0, the cell of
    a number that is written within the range of [long] gets that number
    modulo 2^32, the cell of a number written above [LONG_MAX] gets -1,
    and the cell of a number written below [LONG_MIN] gets 0.  So two
    identifiers whose numbers are written within the range of [long]
    and differ by multiples of 2^32 give the same result. *)
Theorem X9_numbers_that_do_not_fit_an_int (bus device : Z) (a b : string) :
  is_numeral a = true ->
  is_numeral b = true ->
  p_ok (parse_device_identifier bus device (a ++ String ":" b)) = true /\
  (CInt.LONG_MIN <= written_value a <= CInt.LONG_MAX ->
   p_bus (parse_device_identifier bus device (a ++ String ":" b)) =
   (written_value a + 2 ^ 31) mod 2 ^ 32 - 2 ^ 31) /\
  (CInt.LONG_MAX < written_value a ->
   p_bus (parse_device_identifier bus device (a ++ String ":" b)) = -1) /\
  (written_value a < CInt.LONG_MIN ->
   p_bus (parse_device_identifier bus device (a ++ String ":" b)) = 0) /\
  (CInt.LONG_MIN <= written_value b <= CInt.LONG_MAX ->
   p_device (parse_device_identifier bus device (a ++ String ":" b)) =
   (written_value b + 2 ^ 31) mod 2 ^ 32 - 2 ^ 31) /\
  (CInt.LONG_MAX < written_value b ->
   p_device (parse_device_identifier bus device (a ++ String ":" b)) = -1) /\
  (written_value b < CInt.LONG_MIN ->
   p_device (parse_device_identifier bus device (a ++ String ":" b)) = 0) /\
  (forall (a' b' : string) (j k : Z),
     is_numeral a' = true ->
     is_numeral b' = true ->
     CInt.LONG_MIN <= written_value a <= CInt.LONG_MAX ->
     CInt.LONG_MIN <= written_value b <= CInt.LONG_MAX ->
     CInt.LONG_MIN <= written_value a' <= CInt.LONG_MAX ->
     CInt.LONG_MIN <= written_value b' <= CInt.LONG_MAX ->
     written_value a' = written_value a + j * 2 ^ 32 ->
     written_value b' = written_value b + k * 2 ^ 32 ->
     parse_device_identifier bus device (a' ++ String ":" b') =
     parse_device_identifier bus device (a ++ String ":" b)).
Proof.
  intros Ha Hb. rewrite (parse_numerals bus device a b Ha Hb).
  cbn [p_ok p_bus p_device].
  split; [reflexivity|].
  split; [intros H; rewrite (clamp_long_small _ H); reflexivity|].
  split; [apply clamp_long_above|].
  split; [apply clamp_long_below|].
  split; [intros H; rewrite (clamp_long_small _ H); reflexivity|].
  split; [apply clamp_long_above|].
  split; [apply clamp_long_below|].
  intros a' b' j k Ha' Hb' Ra Rb Ra' Rb' Ea Eb.
  rewrite (parse_numerals bus device a' b' Ha' Hb').
  rewrite (clamp_long_small _ Ra), (clamp_long_small _ Rb),
    (clamp_long_small _ Ra'), (clamp_long_small _ Rb'), Ea, Eb,
    !to_int_period.
  reflexivity.
Qed.

Lemma X9_witness :
  (is_numeral "1" = true /\
   is_numeral "2" = true /\
   is_numeral "4294967297" = true /\
   is_numeral "-4294967294" = true /\
   written_value "4294967297" = written_value "1" + 1 * 2 ^ 32 /\
   written_value "-4294967294" = written_value "2" + (-1) * 2 ^ 32 /\
   parse_device_identifier (-1) (-1) "4294967297:-4294967294" =
   parse_device_identifier (-1) (-1) "1:2") /\
  (is_numeral "9223372036854775806" = true /\
   is_numeral "9223372041149743102" = true /\
   is_numeral "-9223372036854775809" = true /\
   written_value "9223372041149743102" =
     written_value "9223372036854775806" + 1 * 2 ^ 32 /\
   p_bus (parse_device_identifier (-1) (-1)
            "9223372036854775806:-9223372036854775809") = -2 /\
   p_bus (parse_device_identifier (-1) (-1)
            "9223372041149743102:-9223372036854775809") = -1 /\
   p_device (parse_device_identifier (-1) (-1)
               "9223372041149743102:-9223372036854775809") = 0).
Proof.
  assert (R : forall z : Z,
             (CInt.LONG_MIN <=? z) && (z <=? CInt.LONG_MAX) = true ->
             CInt.LONG_MIN <= z <= CInt.LONG_MAX).
  { intros z H. apply andb_true_iff in H. destruct H as [H1 H2].
    split; [apply Z.leb_le; exact H1 | apply Z.leb_le; exact H2]. }
  split.
  - do 6 (split; [reflexivity|]).
    exact (proj2 (proj2 (proj2 (proj2 (proj2 (proj2 (proj2
             (X9_numbers_that_do_not_fit_an_int (-1) (-1) "1" "2"
                eq_refl eq_refl)))))))
             "4294967297" "-4294967294" 1 (-1) eq_refl eq_refl
             (R (written_value "1") eq_refl)
             (R (written_value "2") eq_refl)
             (R (written_value "4294967297") eq_refl)
             (R (written_value "-4294967294") eq_refl)
             eq_refl eq_refl).
  - do 4 (split; [reflexivity|]).
    split.
    + exact (proj1 (proj2 (X9_numbers_that_do_not_fit_an_int (-1) (-1)
               "9223372036854775806" "-9223372036854775809"
               eq_refl eq_refl))
               (R (written_value "9223372036854775806") eq_refl)).
    + split.
      * exact (proj1 (proj2 (proj2 (X9_numbers_that_do_not_fit_an_int
                 (-1) (-1) "9223372041149743102" "-9223372036854775809"
                 eq_refl eq_refl))) eq_refl).
      * exact (proj1 (proj2 (proj2 (proj2 (proj2 (proj2 (proj2
                 (X9_numbers_that_do_not_fit_an_int
                 (-1) (-1) "9223372041149743102" "-9223372036854775809"
                 eq_refl eq_refl))))))) eq_refl).
Defined.

(** ** [main]: the command line *)

Lemma print_help_prog (cl cl' : cmdline) :
  argv0 cl = argv0 cl' -> print_help cl = print_help cl'.
Proof.
  intros E. unfold print_help, argv_at, argv. simpl nth. rewrite E.
  reflexivity.
Qed.

Lemma option_loop_prog (cl cl' : cmdline) (l : list getopt_answer) :
  argv0 cl = argv0 cl' ->
  forall o, option_loop cl l o = option_loop cl' l o.
Proof.
  intros E. induction l as [|[c optarg] l IH]; intros o; [reflexivity|].
  cbn [option_loop]. rewrite !bind_writes, !IH, (print_help_prog cl cl' E).
  reflexivity.
Qed.

(** Leaving out the answers [main] has no [case] for changes neither
    what the option loop returns nor the events of [main]'s making. *)
Lemma option_loop_known (cl : cmdline) (l : list getopt_answer) :
  forall o,
    filter own (fst (option_loop cl (filter known l) o)) =
      filter own (fst (option_loop cl l o)) /\
    snd (option_loop cl (filter known l) o) = snd (option_loop cl l o).
Proof.
  induction l as [|[c optarg] l IH]; intros o; [split; reflexivity|].
  cbn [filter]. destruct (known (Answer c optarg)) eqn:K.
  - cbn [option_loop]. rewrite !bind_writes. cbn [fst snd].
    rewrite !filter_app.
    destruct (c =? -1); [split; reflexivity|].
    destruct (c =? ch "m"); [destruct (IH (Options optarg (product o)
        (serial o) (verbose_mode o))) as [-> ->]; split; reflexivity|].
    destruct (c =? ch "p"); [destruct (IH (Options (manufacturer o) optarg
        (serial o) (verbose_mode o))) as [-> ->]; split; reflexivity|].
    destruct (c =? ch "s"); [destruct (IH (Options (manufacturer o)
        (product o) optarg (verbose_mode o))) as [-> ->];
        split; reflexivity|].
    destruct (c =? ch "v"); [destruct (IH (Options (manufacturer o)
        (product o) (serial o) true)) as [-> ->]; split; reflexivity|].
    destruct (c =? ch "h"); [split; reflexivity|].
    destruct (IH o) as [-> ->]. split; reflexivity.
  - unfold known, is_option in K. cbn [g_c] in K.
    repeat (apply orb_false_iff in K; destruct K as [K ?]).
    cbn [option_loop]. rewrite bind_writes. cbn [fst snd].
    repeat match goal with
           | E : (c =? _) = false |- _ => rewrite E; clear E
           end.
    rewrite filter_app. destruct (IH o) as [-> ->].
    split; [|reflexivity].
    destruct (c =? ch "?"); reflexivity.
Qed.

Lemma after_options_same (w : world) (cl cl' : cmdline) (o : options) :
  same_but_unknown cl cl' ->
  after_options w cl o = after_options w cl' o.
Proof.
  intros (E0 & En & Ei & _). unfold after_options.
  fold (identifier cl). fold (identifier cl').
  rewrite (arguments_check cl), (arguments_check cl'), En, Ei,
    (print_help_prog cl cl' E0).
  reflexivity.
Qed.

(** X10: an option for which [main] has no [case] ([getopt_long] answers
    ['?'] and writes its own message) is ignored by [main]: apart from
    the messages of [getopt_long], the events of the run and its exit
    status are those of the run of a command line that differs only by
    such options. *)
Theorem X10_unknown_options_are_ignored (w : world) (cl cl' : cmdline) :
  same_but_unknown cl cl' ->
  filter own (trace (run (main w cl))) =
    filter own (trace (run (main w cl'))) /\
  status (run (main w cl)) = status (run (main w cl')).
Proof.
  intros Hsame. pose proof Hsame as (E0 & _ & _ & Ek).
  assert (Hloop :
    filter own (fst (option_loop cl (getopt_long cl) initial_options)) =
    filter own (fst (option_loop cl' (getopt_long cl') initial_options)) /\
    snd (option_loop cl (getopt_long cl) initial_options) =
    snd (option_loop cl' (getopt_long cl') initial_options)).
  { destruct (option_loop_known cl (getopt_long cl) initial_options)
      as [<- <-].
    destruct (option_loop_known cl' (getopt_long cl') initial_options)
      as [<- <-].
    rewrite Ek, (option_loop_prog cl cl' _ E0). split; reflexivity. }
  unfold main, bind.
  destruct (option_loop cl (getopt_long cl) initial_options) as [t r].
  destruct (option_loop cl' (getopt_long cl') initial_options) as [t' r'].
  cbn [fst snd] in Hloop. destruct Hloop as [Ht <-].
  destruct r as [o|z].
  - rewrite (after_options_same w cl cl' o Hsame).
    destruct (after_options w cl' o) as [u q]. cbn [run trace status fst snd].
    rewrite !filter_app, Ht. split; reflexivity.
  - cbn [run trace status fst snd]. split; [exact Ht | reflexivity].
Qed.

Lemma X10_witness :
  same_but_unknown Cases.unknown_option Sample.plain /\
  filter own (trace (run (main Sample.healthy Cases.unknown_option))) =
    filter own (trace (run (main Sample.healthy Sample.plain))) /\
  status (run (main Sample.healthy Cases.unknown_option)) =
    status (run (main Sample.healthy Sample.plain)).
Proof.
  assert (H : same_but_unknown Cases.unknown_option Sample.plain).
  { repeat split. }
  split; [exact H|].
  exact (X10_unknown_options_are_ignored
           Sample.healthy Cases.unknown_option Sample.plain H).
Defined.

(** ** [main]: what is printed *)

Lemma printed_calls (f : stream) (l : list lib_call) :
  filter (to_stream f) (map ev_call l) = [].
Proof. induction l; simpl; auto. Qed.

Ltac reduce_printed :=
  unfold verbose_lines, new_manufacturer, new_product, new_serial,
    device_manufacturer, device_product, device_serial,
    descriptor_of, read_string;
  recall_answers;
  cbn [printed filter to_stream app];
  unfold printed; rewrite ?filter_app, ?printed_calls;
  cbn [filter to_stream app].

Lemma run_stdout (w : world) (cl : cmdline) :
  printed stdout (trace (run (main w cl))) =
  if help_requested cl || negb (positional_count cl =? 1)
  then help_screen cl else [].
Proof.
  destruct (help_requested cl) eqn:H.
  - rewrite (run_help w cl H). cbn [trace orb]. unfold printed.
    rewrite filter_app, stdout_messages. reflexivity.
  - cbn [orb].
    main_cases w cl H; try reflexivity; reduce_printed; reflexivity.
Qed.

(** X7: the standard output is written by the help screen and by
    nothing else: a run prints the help text there when help is asked
    for or when the number of positional arguments is not one, and
    nothing otherwise. *)
Theorem X7_stdout_is_for_the_help_screen (w : world) (cl : cmdline) :
  printed stdout (trace (run (main w cl))) =
  if help_requested cl || negb (positional_count cl =? 1)
  then usage_text (argv0 cl) else [].
Proof. rewrite run_stdout, help_screen_usage. reflexivity. Qed.

(** X8: in a run that succeeds, the standard error stream has what
    [getopt_long] has written about options it rejects, one message for
    each, and then the seven lines of [-v] (the device looked for, the
    three strings read from the device and the three strings written)
    when [-v] is given, and nothing more when it is not. *)
Theorem X8_stderr_of_a_run_that_succeeds (w : world) (cl : cmdline) :
  verdict_of w cl = Succeeded ->
  exists d,
    selected w cl = Some d /\
    printed stderr (trace (run (main w cl))) =
    getopt_messages cl ++
    if verbose_requested cl then verbose_lines w cl d else [].
Proof.
  destruct (help_requested cl) eqn:H.
  - rewrite (proj2 (verdict_help w cl) H). discriminate.
  - change (verbose_requested cl) with (verbose_mode (options_of cl)).
    main_cases w cl H; intros Hv; try discriminate Hv.
    all: eexists; (split; [reflexivity|]); reduce_printed; reflexivity.
Qed.

Lemma X8_witness :
  verdict_of Sample.healthy Cases.unknown_and_verbose = Succeeded /\
  exists d,
    selected Sample.healthy Cases.unknown_and_verbose = Some d /\
    printed stderr
      (trace (run (main Sample.healthy Cases.unknown_and_verbose))) =
    getopt_messages Cases.unknown_and_verbose ++
    if verbose_requested Cases.unknown_and_verbose
    then verbose_lines Sample.healthy Cases.unknown_and_verbose d else [].
Proof.
  split; [reflexivity|].
  exact (X8_stderr_of_a_run_that_succeeds
           Sample.healthy Cases.unknown_and_verbose eq_refl).
Defined.

Lemma ends_with_last (fmt : string) (a : list fmt_arg) :
  ends_with fmt [ev_fprintf stderr fmt a].
Proof. exists [], a. reflexivity. Qed.

Lemma ends_with_cons (fmt : string) (e : event) (t : list event) :
  ends_with fmt t -> ends_with fmt (e :: t).
Proof. intros (t' & a & ->). exists (e :: t'), a. reflexivity. Qed.

Lemma ends_with_app (fmt : string) (u t : list event) :
  ends_with fmt t -> ends_with fmt (u ++ t).
Proof. intros (t' & a & ->). exists (u ++ t'), a. apply app_assoc. Qed.

(** X14: a run that stops at a check other than the one of the number
    of arguments ends with the diagnostic of that check on the standard
    error stream; each check has a diagnostic of its own. *)
Theorem X14_each_failure_has_its_diagnostic (w : world) (cl : cmdline)
  (s : step) :
  verdict_of w cl = Failed s ->
  s <> s_arguments ->
  ends_with (diagnostic_of s) (trace (run (main w cl))) /\
  forall s', s' <> s_arguments -> s' <> s_close -> s' <> s ->
             diagnostic_of s' <> diagnostic_of s.
Proof.
  intros Hv Hs. split.
  - revert s Hv Hs. destruct (help_requested cl) eqn:H.
    + rewrite (proj2 (verdict_help w cl) H). discriminate.
    + main_cases w cl H; intros s Hv Hs.
      all: try discriminate Hv.
      all: injection Hv as <-; try contradiction.
      all: cbn [diagnostic_of];
        repeat first [ apply ends_with_last
                     | apply ends_with_cons
                     | apply ends_with_app ].
  - pose proof (verdict_never_close w cl) as Hc.
    intros s' H1 H2 H3.
    destruct s; try contradiction; try (rewrite Hv in Hc; contradiction);
      destruct s'; try contradiction; discriminate.
Qed.

Lemma X14_witness :
  verdict_of Sample.locked Sample.plain = Failed s_open /\
  s_open <> s_arguments /\
  ends_with (diagnostic_of s_open)
    (trace (run (main Sample.locked Sample.plain))) /\
  forall s', s' <> s_arguments -> s' <> s_close -> s' <> s_open ->
             diagnostic_of s' <> diagnostic_of s_open.
Proof.
  assert (H : s_open <> s_arguments) by discriminate.
  split; [reflexivity|]. split; [exact H|].
  exact (X14_each_failure_has_its_diagnostic
           Sample.locked Sample.plain s_open eq_refl H).
Defined.

(** X16: every failure [main] checks for, but the number of arguments,
    ends the run with a diagnostic on the standard error stream as its
    last event and with [EXIT_FAILURE], no call of a later step being
    made. *)
Theorem X16_checked_failures_end_the_run (w : world) (cl : cmdline)
  (s : step) :
  verdict_of w cl = Failed s ->
  s <> s_arguments ->
  ends_with_diagnostic (trace (run (main w cl))) /\
  status (run (main w cl)) = EXIT_FAILURE /\
  forall c, In c (calls (trace (run (main w cl)))) ->
            (rank (step_of c) <= rank s)%nat.
Proof.
  intros Hv Hs. split; [exact (run_diagnostic w cl s Hv Hs)|]. split.
  - rewrite run_status, Hv. reflexivity.
  - intros c. exact (calls_before_failure w cl s c Hv).
Qed.

Lemma X16_witness :
  verdict_of Sample.healthy Sample.bad_identifier = Failed s_identifier /\
  s_identifier <> s_arguments /\
  ends_with_diagnostic
    (trace (run (main Sample.healthy Sample.bad_identifier))) /\
  status (run (main Sample.healthy Sample.bad_identifier)) = EXIT_FAILURE /\
  forall c,
    In c (calls (trace (run (main Sample.healthy Sample.bad_identifier)))) ->
    (rank (step_of c) <= rank s_identifier)%nat.
Proof.
  assert (H : s_identifier <> s_arguments) by discriminate.
  split; [reflexivity|]. split; [exact H|].
  exact (X16_checked_failures_end_the_run
           Sample.healthy Sample.bad_identifier s_identifier eq_refl H).
Defined.

(** ** [main]: the search through the device list *)

(** The calls of the search that are in the trace are those of
    [probes] on the list that was enumerated. *)
Lemma calls_of_the_search (w : world) (cl : cmdline) (c : lib_call) :
  In c (calls (trace (run (main w cl)))) ->
  step_of c = s_select ->
  exists l,
    w_libusb_get_device_list w = list_devices l /\ In c (probes cl l).
Proof.
  intros Hc Hs. pose proof (run_calls w cl) as R.
  assert (Hsession : forall l d, In c (session w cl l d) ->
                                 In c (probes cl l)).
  { intros l d H. unfold session in H.
    apply in_app_or in H. destruct H as [H|H].
    { simpl in H. destruct H as [<-|[<-|[]]]; discriminate Hs. }
    apply in_app_or in H. destruct H as [H|H]; [exact H|].
    simpl in H.
    repeat (destruct H as [<-|H]; [discriminate Hs|]). contradiction. }
  destruct (verdict_of w cl) as [|s|]; unfold calls_by_verdict in R.
  - rewrite R in Hc. contradiction.
  - destruct s;
      try (rewrite R in Hc; simpl in Hc;
           repeat (destruct Hc as [<-|Hc]; [discriminate Hs|]);
           contradiction);
      try contradiction;
      try (destruct R as (l & d & Hl & _ & R); rewrite R in Hc;
           apply In_upto in Hc; destruct Hc as [Hc _];
           exists l; split; [exact Hl | exact (Hsession l d Hc)]).
    destruct R as (l & Hl & _ & R). rewrite R in Hc.
    apply in_app_or in Hc. destruct Hc as [Hc|Hc].
    + simpl in Hc. destruct Hc as [<-|[<-|[]]]; discriminate Hs.
    + exists l. split; [exact Hl | exact Hc].
  - destruct R as (l & d & Hl & _ & R). rewrite R in Hc.
    exists l. split; [exact Hl | exact (Hsession l d Hc)].
Qed.

Lemma probes_address (cl : cmdline) (l : list usb_device) (x : usb_device) :
  In (c_libusb_get_device_address x) (probes cl l) ->
  bus_number x = p_bus (selection cl).
Proof.
  induction l as [|d l IH]; simpl; [tauto|].
  destruct (Z.eqb_spec (bus_number d) (p_bus (selection cl))) as [E|E].
  - destruct (device_address d =? p_device (selection cl)); simpl.
    + intros [H|[H|[]]]; [discriminate H|]. injection H as <-. exact E.
    + intros [H|[H|H]]; [discriminate H| |exact (IH H)].
      injection H as <-. exact E.
  - simpl. intros [H|H]; [discriminate H|exact (IH H)].
Qed.

Lemma probes_stop (cl : cmdline) (before after : list usb_device)
  (d x : usb_device) :
  matches cl d = true ->
  In (c_libusb_get_bus_number x) (probes cl (before ++ d :: after)) ->
  In x (before ++ [d]).
Proof.
  intros Hd. induction before as [|b before IH]; simpl.
  - unfold matches in Hd. apply andb_true_iff in Hd. destruct Hd as [Hb Ha].
    rewrite Hb, Ha. simpl. intros [H|[H|[]]]; [|discriminate H].
    injection H as <-. left. reflexivity.
  - destruct (bus_number b =? p_bus (selection cl)).
    + destruct (device_address b =? p_device (selection cl)); simpl.
      * intros [H|[H|[]]]; [|discriminate H]. injection H as <-. auto.
      * intros [H|[H|H]]; [|discriminate H|right; exact (IH H)].
        injection H as <-. auto.
    + simpl. intros [H|H]; [|right; exact (IH H)].
      injection H as <-. auto.
Qed.

Lemma probes_stop_address (cl : cmdline) (before after : list usb_device)
  (d x : usb_device) :
  matches cl d = true ->
  In (c_libusb_get_device_address x) (probes cl (before ++ d :: after)) ->
  In x (before ++ [d]).
Proof.
  intros Hd. induction before as [|b before IH]; simpl.
  - unfold matches in Hd. apply andb_true_iff in Hd. destruct Hd as [Hb Ha].
    rewrite Hb, Ha. simpl. intros [H|[H|[]]]; [discriminate H|].
    injection H as <-. left. reflexivity.
  - destruct (bus_number b =? p_bus (selection cl)).
    + destruct (device_address b =? p_device (selection cl)); simpl.
      * intros [H|[H|[]]]; [discriminate H|]. injection H as <-. auto.
      * intros [H|[H|H]]; [discriminate H| |right; exact (IH H)].
        injection H as <-. auto.
    + simpl. intros [H|H]; [discriminate H|right; exact (IH H)].
Qed.

(** X6: the search asks the address only of devices on the bus that is
    looked for, and it stops at the first device that matches: no device
    after it in the list is asked anything, neither its bus number nor
    its address. *)
Theorem X6_the_search_is_lazy (w : world) (cl : cmdline) (x : usb_device) :
  (In (c_libusb_get_device_address x) (calls (trace (run (main w cl)))) ->
   bus_number x = p_bus (selection cl)) /\
  (forall before d after,
     w_libusb_get_device_list w = list_devices (before ++ d :: after) ->
     matches cl d = true ->
     In (c_libusb_get_bus_number x) (calls (trace (run (main w cl)))) \/
     In (c_libusb_get_device_address x) (calls (trace (run (main w cl)))) ->
     In x (before ++ [d])).
Proof.
  split.
  - intros H.
    destruct (calls_of_the_search w cl _ H eq_refl) as (l & _ & Hp).
    exact (probes_address cl l x Hp).
  - intros before d after Hl Hd [H|H];
      destruct (calls_of_the_search w cl _ H eq_refl) as (l & Hl' & Hp);
      rewrite Hl in Hl'; injection Hl' as <-.
    + exact (probes_stop cl before after d x Hd Hp).
    + exact (probes_stop_address cl before after d x Hd Hp).
Qed.

Lemma X6_witness :
  (In (c_libusb_get_device_address Sample.hub)
      (calls (trace (run (main Sample.healthy Sample.plain)))) /\
   bus_number Sample.hub = p_bus (selection Sample.plain)) /\
  (w_libusb_get_device_list Sample.healthy =
     list_devices ([Sample.hub] ++ Sample.adapter :: []) /\
   matches Sample.plain Sample.adapter = true /\
   (In (c_libusb_get_bus_number Sample.hub)
       (calls (trace (run (main Sample.healthy Sample.plain)))) \/
    In (c_libusb_get_device_address Sample.hub)
       (calls (trace (run (main Sample.healthy Sample.plain))))) /\
   In Sample.hub ([Sample.hub] ++ [Sample.adapter])).
Proof.
  assert (H : In (c_libusb_get_device_address Sample.hub)
                (calls (trace (run (main Sample.healthy Sample.plain))))).
  { vm_compute. pick. }
  split.
  - split; [exact H|].
    exact (proj1 (X6_the_search_is_lazy Sample.healthy Sample.plain
                    Sample.hub) H).
  - split; [reflexivity|]. split; [reflexivity|].
    split; [right; exact H|].
    exact (proj2 (X6_the_search_is_lazy Sample.healthy Sample.plain
                    Sample.hub)
                 [Sample.hub] Sample.adapter [] eq_refl eq_refl
                 (or_intror H)).
Defined.

Lemma find_none_out_of_range (cl : cmdline) (l : list usb_device) :
  (forall d, In d l ->
             in_uint8 (bus_number d) /\ in_uint8 (device_address d)) ->
  ~ (in_uint8 (p_bus (selection cl)) /\
     in_uint8 (p_device (selection cl))) ->
  find (matches cl) l = None.
Proof.
  intros Hl Hsel. induction l as [|d l IH]; [reflexivity|].
  simpl. destruct (matches cl d) eqn:Hm.
  - exfalso. apply Hsel. unfold matches in Hm.
    apply andb_true_iff in Hm. destruct Hm as [Hb Ha].
    apply Z.eqb_eq in Hb, Ha. rewrite <- Hb, <- Ha.
    apply Hl. left. reflexivity.
  - apply IH. intros x Hx. apply Hl. right. exact Hx.
Qed.

(** X5: the bus number and the address of a device are [uint8_t]
    values.  When the identifier gives a bus or a device outside of 0 to
    255 (a negative number, say, which [parse_device_identifier]
    accepts), no device is selected: the run never reaches [ftdi_init]
    and its exit status is not [EXIT_SUCCESS], unless it is a help
    request. *)
Theorem X5_out_of_range_selects_nothing (w : world) (cl : cmdline)
  (l : list usb_device) :
  w_libusb_get_device_list w = list_devices l ->
  (forall d, In d l ->
             in_uint8 (bus_number d) /\ in_uint8 (device_address d)) ->
  ~ (in_uint8 (p_bus (selection cl)) /\
     in_uint8 (p_device (selection cl))) ->
  selected w cl = None /\
  (forall c, In c (calls (trace (run (main w cl)))) ->
             (rank (step_of c) <= rank s_select)%nat) /\
  (help_requested cl = false ->
   status (run (main w cl)) = EXIT_FAILURE).
Proof.
  intros Hl Hrange Hsel.
  pose proof (find_none_out_of_range cl l Hrange Hsel) as Hfind.
  split; [unfold selected; rewrite Hl; exact Hfind|]. split.
  - intros c Hc.
    destruct (Nat.le_gt_cases (rank (step_of c)) (rank s_select))
      as [Hle|Hgt]; [exact Hle|].
    destruct (calls_cover w cl c Hc Hgt) as (l' & d & Hl' & Hd & _).
    rewrite Hl in Hl'. injection Hl' as <-.
    rewrite Hfind in Hd. discriminate Hd.
  - intros H. rewrite run_status. unfold verdict_of.
    rewrite H, Hl, Hfind.
    destruct (negb (positional_count cl =? 1)); [reflexivity|].
    destruct (negb (p_ok (selection cl))); reflexivity.
Qed.

Lemma X5_witness :
  w_libusb_get_device_list Sample.healthy =
    list_devices [Sample.hub; Sample.adapter] /\
  (forall d, In d [Sample.hub; Sample.adapter] ->
             in_uint8 (bus_number d) /\ in_uint8 (device_address d)) /\
  ~ (in_uint8 (p_bus (selection Cases.negative_bus)) /\
     in_uint8 (p_device (selection Cases.negative_bus))) /\
  selected Sample.healthy Cases.negative_bus = None /\
  (forall c,
     In c (calls (trace (run (main Sample.healthy Cases.negative_bus)))) ->
     (rank (step_of c) <= rank s_select)%nat) /\
  (help_requested Cases.negative_bus = false ->
   status (run (main Sample.healthy Cases.negative_bus)) = EXIT_FAILURE).
Proof.
  assert (H1 : forall d, In d [Sample.hub; Sample.adapter] ->
                 in_uint8 (bus_number d) /\ in_uint8 (device_address d)).
  { intros d [<-|[<-|[]]]; unfold in_uint8; simpl; lia. }
  assert (H2 : ~ (in_uint8 (p_bus (selection Cases.negative_bus)) /\
                  in_uint8 (p_device (selection Cases.negative_bus)))).
  { intros [[H _] _]. vm_compute in H. apply H. reflexivity. }
  split; [reflexivity|]. split; [exact H1|]. split; [exact H2|].
  exact (X5_out_of_range_selects_nothing
           Sample.healthy Cases.negative_bus
           [Sample.hub; Sample.adapter] eq_refl H1 H2).
Defined.

(** ** [main]: the exit status and the calls on the device *)

(** X12: the exit status is 0 or 1, and it is 0 in two cases only: help
    was asked for, or [ftdi_write_eeprom] has been called and has
    succeeded. *)
Theorem X12_exit_status_zero (w : world) (cl : cmdline) :
  (status (run (main w cl)) = EXIT_SUCCESS \/
   status (run (main w cl)) = EXIT_FAILURE) /\
  (status (run (main w cl)) = EXIT_SUCCESS <->
   help_requested cl = true \/
   (In c_ftdi_write_eeprom (calls (trace (run (main w cl)))) /\
    0 <= w_ftdi_write_eeprom w)).
Proof.
  rewrite run_status. pose proof (run_calls w cl) as R.
  destruct (verdict_of w cl) as [|s|] eqn:Hv.
  - split; [left; reflexivity|]. split; [|reflexivity].
    intros _. left. exact (proj1 (verdict_help w cl) Hv).
  - split; [right; reflexivity|]. split; [discriminate|].
    intros [H|[Hc Hw]].
    + apply (verdict_help w cl) in H. rewrite H in Hv. discriminate Hv.
    + exfalso.
      pose proof (calls_before_failure w cl s _ Hv Hc) as Hr.
      destruct s; simpl in Hr; try lia.
      * revert Hv. unfold verdict_of.
        destruct (help_requested cl); [discriminate|].
        destruct (negb (positional_count cl =? 1)); [discriminate|].
        destruct (negb (p_ok (selection cl))); [discriminate|].
        destruct (w_libusb_get_device_list w) as [e|l]; [discriminate|].
        destruct (find (matches cl) l) as [d|]; [|discriminate].
        unfold verdict_on.
        repeat match goal with
               | |- context [if ?c then _ else _] =>
                   destruct c eqn:?; [try discriminate|]
               end; [|discriminate].
        intros _.
        match goal with
        | E : (w_ftdi_write_eeprom w <? 0) = true |- _ =>
            apply Z.ltb_lt in E; lia
        end.
      * exact (verdict_never_close w cl Hv).
  - split; [left; reflexivity|]. split; [|reflexivity].
    intros _. right.
    destruct (verdict_succeeded w cl Hv) as (_ & _ & _ & l & d & _ & _ & Hon).
    apply verdict_on_succeeded in Hon.
    split; [|tauto].
    unfold calls_by_verdict in R. destruct R as (l' & d' & _ & _ & ->).
    apply In_session_tail. simpl. tauto.
Qed.

(** The checks that have passed when a call of a step after the reading
    of the three strings is in the trace. *)
Lemma strings_were_read (w : world) (cl : cmdline) (c : lib_call) :
  In c (calls (trace (run (main w cl)))) ->
  (rank s_serial < rank (step_of c))%nat ->
  exists d,
    selected w cl = Some d /\
    0 <= fst (read_string w d (iManufacturer (descriptor_of w d))) /\
    0 <= fst (read_string w d (iProduct (descriptor_of w d))) /\
    0 <= fst (read_string w d (iSerialNumber (descriptor_of w d))).
Proof.
  intros Hc Hr.
  assert (Hrank : forall s, verdict_of w cl = Failed s ->
                            (rank s_serial < rank s)%nat).
  { intros s Hv. pose proof (calls_before_failure w cl s c Hv Hc). lia. }
  pose proof (run_calls w cl) as R.
  unfold selected. revert Hrank R. unfold verdict_of.
  destruct (help_requested cl);
    [intros _ R; unfold calls_by_verdict in R; rewrite R in Hc;
     contradiction|].
  destruct (negb (positional_count cl =? 1));
    [intros H; specialize (H _ eq_refl); simpl in H; lia|].
  destruct (negb (p_ok (selection cl)));
    [intros H; specialize (H _ eq_refl); simpl in H; lia|].
  destruct (w_libusb_get_device_list w) as [e|l];
    [intros H; specialize (H _ eq_refl); simpl in H; lia|].
  destruct (find (matches cl) l) as [d|];
    [|intros H; specialize (H _ eq_refl); simpl in H; lia].
  unfold verdict_on. intros Hrank _. exists d. split; [reflexivity|].
  destruct (negb (w_ftdi_init w =? 0));
    [specialize (Hrank _ eq_refl); simpl in Hrank; lia|].
  destruct (negb (w_ftdi_usb_open_dev w d =? 0));
    [specialize (Hrank _ eq_refl); simpl in Hrank; lia|].
  destruct (fst (w_libusb_get_device_descriptor w d) <? 0);
    [specialize (Hrank _ eq_refl); simpl in Hrank; lia|].
  destruct (Z.ltb_spec
              (fst (read_string w d (iManufacturer (descriptor_of w d)))) 0);
    [specialize (Hrank _ eq_refl); simpl in Hrank; lia|].
  destruct (Z.ltb_spec
              (fst (read_string w d (iProduct (descriptor_of w d)))) 0);
    [specialize (Hrank _ eq_refl); simpl in Hrank; lia|].
  destruct (Z.ltb_spec
              (fst (read_string w d (iSerialNumber (descriptor_of w d)))) 0);
    [specialize (Hrank _ eq_refl); simpl in Hrank; lia|].
  auto.
Qed.

(** X13: the three strings of the device are read, and have to be
    readable, whatever the options are: when one of the three readings
    fails on the device that is selected, nothing is written, also when
    [-m], [-p] and [-s] give all three strings. *)
Theorem X13_old_strings_must_be_readable (w : world) (cl : cmdline)
  (d : usb_device) :
  selected w cl = Some d ->
  fst (read_string w d (iManufacturer (descriptor_of w d))) < 0 \/
  fst (read_string w d (iProduct (descriptor_of w d))) < 0 \/
  fst (read_string w d (iSerialNumber (descriptor_of w d))) < 0 ->
  (forall m p s,
     ~ In (c_ftdi_eeprom_initdefaults m p s)
          (calls (trace (run (main w cl))))) /\
  ~ In c_ftdi_eeprom_build (calls (trace (run (main w cl)))) /\
  ~ In c_ftdi_write_eeprom (calls (trace (run (main w cl)))).
Proof.
  intros Hd Hfail.
  assert (Hno : forall c, (rank s_serial < rank (step_of c))%nat ->
                  ~ In c (calls (trace (run (main w cl))))).
  { intros c Hr Hc.
    destruct (strings_were_read w cl c Hc Hr) as (d' & Hd' & H1 & H2 & H3).
    rewrite Hd in Hd'. injection Hd' as <-. lia. }
  split; [|split].
  - intros m p s. apply Hno. simpl. lia.
  - apply Hno. simpl. lia.
  - apply Hno. simpl. lia.
Qed.

Lemma X13_witness :
  selected Cases.no_serial Cases.all_given = Some Sample.adapter /\
  (fst (read_string Cases.no_serial Sample.adapter
          (iManufacturer (descriptor_of Cases.no_serial Sample.adapter)))
     < 0 \/
   fst (read_string Cases.no_serial Sample.adapter
          (iProduct (descriptor_of Cases.no_serial Sample.adapter)))
     < 0 \/
   fst (read_string Cases.no_serial Sample.adapter
          (iSerialNumber (descriptor_of Cases.no_serial Sample.adapter)))
     < 0) /\
  (forall m p s,
     ~ In (c_ftdi_eeprom_initdefaults m p s)
          (calls (trace (run (main Cases.no_serial Cases.all_given))))) /\
  ~ In c_ftdi_eeprom_build
       (calls (trace (run (main Cases.no_serial Cases.all_given)))) /\
  ~ In c_ftdi_write_eeprom
       (calls (trace (run (main Cases.no_serial Cases.all_given)))).
Proof.
  assert (H : fst (read_string Cases.no_serial Sample.adapter
                (iManufacturer
                   (descriptor_of Cases.no_serial Sample.adapter))) < 0 \/
              fst (read_string Cases.no_serial Sample.adapter
                (iProduct
                   (descriptor_of Cases.no_serial Sample.adapter))) < 0 \/
              fst (read_string Cases.no_serial Sample.adapter
                (iSerialNumber
                   (descriptor_of Cases.no_serial Sample.adapter))) < 0).
  { right. right. vm_compute. reflexivity. }
  split; [reflexivity|]. split; [exact H|].
  exact (X13_old_strings_must_be_readable
           Cases.no_serial Cases.all_given Sample.adapter eq_refl H).
Defined.

(** ** [main]: nothing is tried twice *)

Lemma probes_device (cl : cmdline) (l : list usb_device) (c : lib_call) :
  In c (probes cl l) ->
  exists x, In x l /\
            (c = c_libusb_get_bus_number x \/
             c = c_libusb_get_device_address x).
Proof.
  induction l as [|d l IH]; simpl; [tauto|].
  assert (Hrec : In c (probes cl l) ->
                 exists x, (d = x \/ In x l) /\
                           (c = c_libusb_get_bus_number x \/
                            c = c_libusb_get_device_address x)).
  { intros H. destruct (IH H) as (x & Hx & Hc). exists x. auto. }
  destruct (bus_number d =? p_bus (selection cl)).
  - destruct (device_address d =? p_device (selection cl)); simpl.
    + intros [<-|[<-|[]]]; exists d; auto.
    + intros [<-|[<-|H]]; [exists d; auto | exists d; auto | auto].
  - simpl. intros [<-|H]; [exists d; auto | auto].
Qed.

Lemma NoDup_probes (cl : cmdline) (l : list usb_device) :
  NoDup l -> NoDup (probes cl l).
Proof.
  induction 1 as [|d l Hd Hl IH]; simpl; [constructor|].
  assert (Hout : forall c, (c = c_libusb_get_bus_number d \/
                            c = c_libusb_get_device_address d) ->
                           ~ In c (probes cl l)).
  { intros c Hc Hin. destruct (probes_device cl l c Hin) as (x & Hx & Hcx).
    assert (x = d) by (destruct Hc, Hcx; congruence). subst x. auto. }
  destruct (bus_number d =? p_bus (selection cl)).
  - destruct (device_address d =? p_device (selection cl)).
    + repeat constructor; simpl; intuition discriminate.
    + constructor.
      * simpl. intros [H|H]; [discriminate H|]. exact (Hout _ (or_introl eq_refl) H).
      * constructor; [apply Hout; auto | exact IH].
  - constructor; [apply Hout; auto | exact IH].
Qed.

Lemma NoDup_session (w : world) (cl : cmdline) (l : list usb_device)
  (d : usb_device) :
  NoDup (probes cl l) -> NoDup (session w cl l d).
Proof.
  intros Hp. unfold session.
  apply NoDup_app; [repeat constructor; simpl; intuition discriminate | |].
  - apply NoDup_app; [exact Hp | |].
    + repeat constructor; simpl; intuition discriminate.
    + intros c Hc Hin. apply In_probes in Hc. simpl in Hin.
      repeat (destruct Hin as [<-|Hin]; [discriminate Hc|]). contradiction.
  - intros c Hc Hin. apply in_app_or in Hin. destruct Hin as [Hin|Hin].
    + apply In_probes in Hin. simpl in Hc.
      destruct Hc as [<-|[<-|[]]]; discriminate Hin.
    + simpl in Hc, Hin.
      destruct Hc as [<-|[<-|[]]];
        repeat (destruct Hin as [Hin|Hin]; [discriminate Hin|]);
        contradiction.
Qed.

Lemma not_probe_probes (cl : cmdline) (l : list usb_device) :
  filter not_probe (probes cl l) = [].
Proof.
  induction l as [|d l IH]; simpl; [reflexivity|].
  destruct (bus_number d =? p_bus (selection cl)); simpl; [|exact IH].
  destruct (device_address d =? p_device (selection cl)); simpl;
    [reflexivity | exact IH].
Qed.

Lemma filter_swap {A} (f g : A -> bool) (l : list A) :
  filter f (filter g l) = filter g (filter f l).
Proof.
  induction l as [|a l IH]; simpl; [reflexivity|].
  destruct (f a) eqn:Fa, (g a) eqn:Ga; simpl; rewrite ?Fa, ?Ga, IH;
    reflexivity.
Qed.

Lemma NoDup_not_probe_session (w : world) (cl : cmdline)
  (l : list usb_device) (d : usb_device) :
  NoDup (filter not_probe (session w cl l d)).
Proof.
  unfold session. rewrite !filter_app, not_probe_probes. simpl.
  repeat constructor; simpl; intuition discriminate.
Qed.

(** X17: nothing is tried twice.  In every run each call of the
    enumeration, of libftdi and of the reading of the descriptors is
    made at most once; when the device list has no device twice, no
    library call at all is made twice. *)
Theorem X17_no_call_is_made_twice (w : world) (cl : cmdline) :
  NoDup (filter not_probe (calls (trace (run (main w cl))))) /\
  (forall l,
     w_libusb_get_device_list w = list_devices l ->
     NoDup l ->
     NoDup (calls (trace (run (main w cl))))).
Proof.
  pose proof (run_calls w cl) as R. split.
  - destruct (verdict_of w cl) as [|s|]; unfold calls_by_verdict in R.
    + rewrite R. constructor.
    + destruct s;
        try (rewrite R; simpl; repeat constructor; simpl;
             intuition discriminate);
        try contradiction;
        try (destruct R as (l & d & _ & _ & ->); unfold upto;
             rewrite filter_swap; apply NoDup_filter;
             apply NoDup_not_probe_session).
      destruct R as (l & _ & _ & ->).
      rewrite filter_app, not_probe_probes. simpl.
      repeat constructor; simpl; intuition discriminate.
    + destruct R as (l & d & _ & _ & ->). apply NoDup_not_probe_session.
  - intros l Hl Hnd. pose proof (NoDup_probes cl l Hnd) as Hp.
    destruct (verdict_of w cl) as [|s|]; unfold calls_by_verdict in R.
    + rewrite R. constructor.
    + destruct s;
        try (rewrite R; repeat constructor; simpl; intuition discriminate);
        try contradiction;
        try (destruct R as (l' & d & Hl' & _ & ->);
             rewrite Hl in Hl'; injection Hl' as <-;
             apply NoDup_filter; apply NoDup_session; exact Hp).
      destruct R as (l' & Hl' & _ & ->).
      rewrite Hl in Hl'. injection Hl' as <-.
      apply NoDup_app;
        [repeat constructor; simpl; intuition discriminate | exact Hp |].
      intros c Hc Hin. apply In_probes in Hin. simpl in Hc.
      destruct Hc as [<-|[<-|[]]]; discriminate Hin.
    + destruct R as (l' & d & Hl' & _ & ->).
      rewrite Hl in Hl'. injection Hl' as <-.
      apply NoDup_session. exact Hp.
Qed.

Lemma X17_witness :
  NoDup (filter not_probe
           (calls (trace (run (main Sample.healthy Sample.plain))))) /\
  w_libusb_get_device_list Sample.healthy =
    list_devices [Sample.hub; Sample.adapter] /\
  NoDup [Sample.hub; Sample.adapter] /\
  NoDup (calls (trace (run (main Sample.healthy Sample.plain)))).
Proof.
  assert (H : NoDup [Sample.hub; Sample.adapter]).
  { repeat constructor; simpl; intuition discriminate. }
  split;
    [exact (proj1 (X17_no_call_is_made_twice Sample.healthy Sample.plain))|].
  split; [reflexivity|]. split; [exact H|].
  exact (proj2 (X17_no_call_is_made_twice Sample.healthy Sample.plain)
               [Sample.hub; Sample.adapter] eq_refl H).
Defined.

(** ** [main]: what [-v] changes *)

Lemma before_end_quiet (l : list getopt_answer) :
  before_end (filter (fun a => negb (is_option "v" a)) l) =
  filter (fun a => negb (is_option "v" a)) (before_end l).
Proof.
  induction l as [|a l IH]; [reflexivity|]. cbn [filter before_end].
  destruct (is_option "v" a) eqn:E; cbn [negb].
  - assert (Hend : (g_c a =? -1) = false).
    { unfold is_option in E. apply Z.eqb_eq in E. rewrite E. reflexivity. }
    rewrite Hend. cbn [filter]. rewrite E. exact IH.
  - cbn [before_end]. destruct (g_c a =? -1); [reflexivity|].
    cbn [filter]. rewrite E, IH. reflexivity.
Qed.

Lemma existsb_quiet (l : list getopt_answer) :
  existsb (is_option "h") (filter (fun a => negb (is_option "v" a)) l) =
  existsb (is_option "h") l.
Proof.
  induction l as [|a l IH]; [reflexivity|]. cbn [filter existsb].
  destruct (is_option "v" a) eqn:E; cbn [negb].
  - assert (Hh : is_option "h" a = false).
    { unfold is_option in *. apply Z.eqb_eq in E. rewrite E. reflexivity. }
    rewrite Hh, IH. reflexivity.
  - cbn [existsb]. rewrite IH. reflexivity.
Qed.

Lemma last_optarg_quiet (c : ascii) (l : list getopt_answer) :
  ch c <> ch "v" ->
  forall init,
    last_optarg c (filter (fun a => negb (is_option "v" a)) l) init =
    last_optarg c l init.
Proof.
  intros Hc. unfold last_optarg.
  induction l as [|a l IH]; intros init; [reflexivity|].
  cbn [filter fold_left].
  destruct (is_option "v" a) eqn:E; cbn [negb].
  - assert (Ha : is_option c a = false).
    { unfold is_option in *. apply Z.eqb_eq in E. rewrite E.
      apply Z.eqb_neq. congruence. }
    rewrite Ha. apply IH.
  - cbn [fold_left]. apply IH.
Qed.

Lemma help_requested_quiet (cl : cmdline) :
  help_requested (quiet cl) = help_requested cl.
Proof.
  unfold help_requested, options_seen, quiet. cbn [getopt_long].
  rewrite before_end_quiet. apply existsb_quiet.
Qed.

Lemma options_quiet (cl : cmdline) :
  manufacturer (options_of (quiet cl)) = manufacturer (options_of cl) /\
  product (options_of (quiet cl)) = product (options_of cl) /\
  serial (options_of (quiet cl)) = serial (options_of cl).
Proof.
  unfold options_of, options_seen, quiet.
  cbn [getopt_long manufacturer product serial].
  rewrite before_end_quiet.
  repeat split; apply last_optarg_quiet; discriminate.
Qed.

Lemma probes_quiet (cl : cmdline) (l : list usb_device) :
  probes (quiet cl) l = probes cl l.
Proof.
  induction l as [|d l IH]; [reflexivity|].
  cbn [probes]. rewrite IH. reflexivity.
Qed.

Lemma session_quiet (w : world) (cl : cmdline) (l : list usb_device)
  (d : usb_device) :
  session w (quiet cl) l d = session w cl l d.
Proof.
  destruct (options_quiet cl) as (Em & Ep & Es).
  unfold session, new_manufacturer, new_product, new_serial.
  rewrite Em, Ep, Es, probes_quiet. reflexivity.
Qed.

Lemma verdict_quiet (w : world) (cl : cmdline) :
  verdict_of w (quiet cl) = verdict_of w cl.
Proof.
  destruct (options_quiet cl) as (Em & Ep & Es).
  unfold verdict_of, verdict_on, new_manufacturer, new_product, new_serial.
  rewrite help_requested_quiet, Em, Ep, Es. reflexivity.
Qed.

Lemma calls_by_verdict_quiet (w : world) (cl : cmdline) (v : verdict)
  (cs : list lib_call) :
  calls_by_verdict w (quiet cl) v cs -> calls_by_verdict w cl v cs.
Proof.
  unfold calls_by_verdict.
  destruct v as [|s|]; [auto| |].
  - destruct s; auto;
      try (intros (l & d & Hl & Hd & ->); exists l, d;
           rewrite <- (session_quiet w cl l d); auto).
    intros (l & Hl & Hd & ->). exists l.
    rewrite <- (probes_quiet cl l). auto.
  - intros (l & d & Hl & Hd & ->). exists l, d.
    rewrite <- (session_quiet w cl l d). auto.
Qed.

Lemma calls_by_verdict_unique (w : world) (cl : cmdline) (v : verdict)
  (cs cs' : list lib_call) :
  calls_by_verdict w cl v cs -> calls_by_verdict w cl v cs' -> cs = cs'.
Proof.
  unfold calls_by_verdict.
  destruct v as [|s|]; [congruence| |].
  - destruct s; try congruence; try contradiction;
      try (intros (l & d & Hl & Hd & ->) (l' & d' & Hl' & Hd' & ->);
           rewrite Hl in Hl'; injection Hl' as <-;
           rewrite Hd in Hd'; injection Hd' as <-; reflexivity).
    intros (l & Hl & _ & ->) (l' & Hl' & _ & ->).
    rewrite Hl in Hl'. injection Hl' as <-. reflexivity.
  - intros (l & d & Hl & Hd & ->) (l' & d' & Hl' & Hd' & ->).
    rewrite Hl in Hl'. injection Hl' as <-.
    rewrite Hd in Hd'. injection Hd' as <-. reflexivity.
Qed.

(** X11: [-v] adds lines to the standard error stream and changes
    nothing else: the library calls, the exit status and the standard
    output of a run are those of the run without [-v]. *)
Theorem X11_verbose_changes_stderr_only (w : world) (cl : cmdline) :
  calls (trace (run (main w (quiet cl)))) =
    calls (trace (run (main w cl))) /\
  status (run (main w (quiet cl))) = status (run (main w cl)) /\
  printed stdout (trace (run (main w (quiet cl)))) =
    printed stdout (trace (run (main w cl))).
Proof.
  split; [|split].
  - pose proof (run_calls w (quiet cl)) as R.
    rewrite verdict_quiet in R. apply calls_by_verdict_quiet in R.
    exact (calls_by_verdict_unique w cl _ _ _ R (run_calls w cl)).
  - rewrite !run_status, verdict_quiet. reflexivity.
  - rewrite !run_stdout, help_requested_quiet. reflexivity.
Qed.
